(** * Growth-period inference of the DeepMC forecast notebook

    A shallow embedding of the "Preprocess data" cells of
    [notebooks/deepmc/mc_forecast.ipynb]:

<<
    ndvi_threshold = 0.15
    delta_threshold = 0.1
    rolling_window = 14

    df = pd.read_csv(timeseries[0].assets[0].path_or_url)

    df['rolled_mean'] = df['mean'].rolling(window=3).mean()
    df['delta_mean'] = df['rolled_mean'].diff()

    df.loc[(df['rolled_mean'] < ndvi_threshold)
           & (df['delta_mean'].abs() <= delta_threshold)
           & (df['delta_mean'] < 0), 'harvest_period'] = ndvi_threshold
    df.loc[(df['rolled_mean'] < ndvi_threshold)
           & (df['delta_mean'].abs() < delta_threshold)
           & (df['delta_mean'] > 0), 'germination_period'] = ndvi_threshold
>>

    Numbers.  A float64 cell is an [option Q]: [None] is NaN and [Some q] a
    finite value.  Arithmetic is exact rational arithmetic; the rounding of
    binary64 is not part of this development.

    Frames.  A data frame is the list of its timestamps (the non-float part
    of the CSV) and a finite map from column names to float columns.  Cells
    of the notebook are functions from frames to frames in an error monad
    whose exceptions are those that the dataframe library can throw on
    these statements.  A CSV file whose column [mean] holds a text does not
    load as such a frame; the last definitions of the first part say what
    the notebook does on it. *)

From Stdlib Require Import QArith Qabs Lqa.
From stdpp Require Import gmap strings list fin_maps.

(** ** Float cells *)

Module Float.

Abbreviation float := (option Q).

Definition NaN : float := None.

Definition Qlt_bool (x y : Q) : bool :=
  (Qnum x * QDen y <? Qnum y * QDen x)%Z.

Definition sub (x y : float) : float :=
  match x, y with
  | Some a, Some b => Some (a - b)%Q
  | _, _ => NaN
  end.

Definition abs (x : float) : float :=
  match x with
  | Some a => Some (Qabs a)
  | None => NaN
  end.

(** Every comparison with NaN is false. *)
Definition lt (x y : float) : bool :=
  match x, y with
  | Some a, Some b => Qlt_bool a b
  | _, _ => false
  end.

Definition le (x y : float) : bool :=
  match x, y with
  | Some a, Some b => Qle_bool a b
  | _, _ => false
  end.

Definition gt (x y : float) : bool := lt y x.

End Float.

Import Float.

(** ** Series: a float column *)

Module Series.

Abbreviation Series := (list (option Q)).

Definition Qsum (l : list Q) : Q := foldr Qplus 0%Q l.

Definition Qmean (l : list Q) : Q :=
  (Qsum l / inject_Z (Z.of_nat (length l)))%Q.

(** The observations of the rolling window that ends at row [i]: the last
    [window] rows up to and including [i], fewer at the start of the
    series. *)
Definition window_at (window i : nat) (xs : Series) : Series :=
  drop (S i - window) (take (S i) xs).

(** The non-NaN observations of a window. *)
Definition valid (win : Series) : list Q := omap id win.

(** [xs.rolling(window).mean()], with the default [min_periods = window]:
    a row has a value when its window holds at least [window] non-NaN
    observations (and at least one), the mean of these. *)
Definition mean_at (window i : nat) (xs : Series) : float :=
  let obs := valid (window_at window i xs) in
  if decide (window ≤ length obs ∧ 0 < length obs)
  then Some (Qmean obs) else NaN.

Definition rolling_mean (window : nat) (xs : Series) : Series :=
  imap (λ i _, mean_at window i xs) xs.

(** [xs.shift(1)] and [xs.diff()], which is [xs - xs.shift(1)]. *)
Definition shift (xs : Series) : Series := take (length xs) (NaN :: xs).

Definition diff (xs : Series) : Series := zip_with Float.sub xs (shift xs).

(** Elementwise operations against a scalar, and the mask conjunction. *)
Definition abs (xs : Series) : Series := Float.abs <$> xs.
Definition lt (xs : Series) (c : Q) : list bool := (λ x, Float.lt x (Some c)) <$> xs.
Definition le (xs : Series) (c : Q) : list bool := (λ x, Float.le x (Some c)) <$> xs.
Definition gt (xs : Series) (c : Q) : list bool := (λ x, Float.gt x (Some c)) <$> xs.
Definition band (m1 m2 : list bool) : list bool := zip_with andb m1 m2.

(** The rows of [old] selected by [mask] set to [v]. *)
Definition assign (mask : list bool) (v : Q) (old : Series) : Series :=
  zip_with (λ (m : bool) (o : float), if m then Some v else o) mask old.

End Series.

Import Series.

(** ** Exceptions *)

Inductive exn : Type :=
| KeyError (column : string)
| ValueError (message : string)
| DataError.

Inductive result (A : Type) : Type :=
| Ok (a : A)
| Raise (e : exn).

Arguments Ok {A} a.
Arguments Raise {A} e.

#[global] Instance result_ret : MRet result := λ A a, Ok a.

#[global] Instance result_bind : MBind result := λ A B k r,
  match r with
  | Ok a => k a
  | Raise e => Raise e
  end.

#[global] Instance result_fmap : FMap result := λ A B f r,
  match r with
  | Ok a => Ok (f a)
  | Raise e => Raise e
  end.

(** ** Data frames *)

Record Observation : Type := mkObservation {
  timestamp : Z;
  value : Q
}.

Record DataFrame : Type := mkDataFrame {
  timestamps : list Z;
  columns : gmap string (list (option Q))
}.

Definition nrows (df : DataFrame) : nat := length (timestamps df).

(** [df[c]] *)
Definition getitem (df : DataFrame) (c : string) : result Series :=
  match columns df !! c with
  | Some xs => Ok xs
  | None => Raise (KeyError c)
  end.

(** [df[c] = xs] *)
Definition setitem (df : DataFrame) (c : string) (xs : Series) : DataFrame :=
  mkDataFrame (timestamps df) (<[c := xs]> (columns df)).

(** [df.loc[mask, c] = v] for a scalar [v].  A column that does not exist
    yet is first added, filled with NaN; the library refuses to do that on
    a frame without rows. *)
Definition loc_setitem (df : DataFrame) (mask : list bool) (c : string) (v : Q)
  : result DataFrame :=
  match columns df !! c with
  | Some old => Ok (setitem df c (assign mask v old))
  | None =>
      if decide (nrows df = 0)
      then Raise (ValueError "cannot set a frame with no defined index and a scalar")
      else Ok (setitem df c (assign mask v (replicate (nrows df) NaN)))
  end.

(** The frame that [pd.read_csv] yields for a series of observations. *)
Definition read_csv (obs : list Observation) : DataFrame :=
  mkDataFrame (timestamp <$> obs) {[ "mean"%string := (λ o, Some (value o)) <$> obs ]}.

(** ** The notebook *)

Record Params : Type := mkParams {
  ndvi_threshold : Q;
  delta_threshold : Q;
  rolling_window : nat
}.

(** The parameter cell. *)
Definition defaults : Params :=
  {| ndvi_threshold := 0.15; delta_threshold := 0.1; rolling_window := 14 |}.

(** The keyword argument of [rolling(window=3)]. *)
Definition window : nat := 3.

(** The smoothing cell. *)
Definition smooth (df : DataFrame) : result DataFrame :=
  mean ← getitem df "mean";
  let df := setitem df "rolled_mean" (rolling_mean window mean) in
  rolled_mean ← getitem df "rolled_mean";
  Ok (setitem df "delta_mean" (diff rolled_mean)).

Definition harvest_mask (p : Params) (rolled_mean delta_mean : Series) : list bool :=
  band (band (Series.lt rolled_mean (ndvi_threshold p))
             (Series.le (Series.abs delta_mean) (delta_threshold p)))
       (Series.lt delta_mean 0).

Definition germination_mask (p : Params) (rolled_mean delta_mean : Series) : list bool :=
  band (band (Series.lt rolled_mean (ndvi_threshold p))
             (Series.lt (Series.abs delta_mean) (delta_threshold p)))
       (Series.gt delta_mean 0).

(** The labelling cell. *)
Definition label (p : Params) (df : DataFrame) : result DataFrame :=
  rolled_mean ← getitem df "rolled_mean";
  delta_mean ← getitem df "delta_mean";
  df ← loc_setitem df (harvest_mask p rolled_mean delta_mean)
         "harvest_period" (ndvi_threshold p);
  rolled_mean ← getitem df "rolled_mean";
  delta_mean ← getitem df "delta_mean";
  loc_setitem df (germination_mask p rolled_mean delta_mean)
    "germination_period" (ndvi_threshold p).

(** The growth-period detector: the smoothing cell, then the labelling
    cell, under the parameters of the parameter cell. *)
Definition detect (p : Params) (df : DataFrame) : result DataFrame :=
  df ← smooth df; label p df.

(** The column [c] of the outcome, when there is one. *)
Definition column (c : string) (r : result DataFrame) : option Series :=
  match r with
  | Ok df => columns df !! c
  | Raise _ => None
  end.

(** The value at row [i] of column [c] of the outcome. *)
Definition cell (c : string) (i : nat) (r : result DataFrame) : option float :=
  xs ← column c r; xs !! i.

(** Row [i] carries a label in the label column [c]. *)
Definition labelled (c : string) (i : nat) (r : result DataFrame) : Prop :=
  ∃ v : Q, cell c i r = Some (Some v).

(** A series sampled on consecutive days. *)
Definition daily (vs : list Q) : list Observation :=
  imap (λ i v, mkObservation (Z.of_nat i) v) vs.

(** ** Closed forms

    The columns that the cells compute from the values of a series, in
    closed form; the lemmas of the second part show that the cells produce
    exactly these. *)

Definition rolled (vs : list Q) : Series := rolling_mean window (Some <$> vs).

Definition delta (vs : list Q) : Series := diff (rolled vs).

Definition harvest (p : Params) (vs : list Q) : Series :=
  assign (harvest_mask p (rolled vs) (delta vs)) (ndvi_threshold p)
    (replicate (length vs) NaN).

Definition germination (p : Params) (vs : list Q) : Series :=
  assign (germination_mask p (rolled vs) (delta vs)) (ndvi_threshold p)
    (replicate (length vs) NaN).

Definition smoothed (vs : list Q) : gmap string (list (option Q)) :=
  <["delta_mean"%string := delta vs]>
    (<["rolled_mean"%string := rolled vs]> {["mean"%string := Some <$> vs]}).

Definition annotated (p : Params) (vs : list Q) : gmap string (list (option Q)) :=
  <["germination_period"%string := germination p vs]>
    (<["harvest_period"%string := harvest p vs]> (smoothed vs)).

(** ** Series used in the examples *)

(** The example series of the specification. *)
Definition example : list Observation :=
  daily [0.5; 0.4; 0.3; 0.2; 0.14; 0.13; 0.12; 0.14; 0.16]%Q.

(** Three equal observations. *)
Definition three : list Observation := daily [0.3; 0.3; 0.3]%Q.

(** Five falling observations. *)
Definition falling : list Observation := daily [0.2; 0.15; 0.1; 0.05; 0.03]%Q.

(** Four falling observations whose smoothed value drops by exactly 0.1. *)
Definition steep : list Observation := daily [0.3; 0.2; 0.1; 0]%Q.

(** Four falling observations with timestamps out of order and one
    timestamp twice. *)
Definition shuffled : list Observation :=
  [mkObservation 3 0.3; mkObservation 1 0.2; mkObservation 2 0.1; mkObservation 2 0.05]%Q.

(** ** Well-formed input in the words of the specification

    The specification asks for a series that is not empty and whose
    timestamps ascend without duplicates.  The notebook has no such check;
    the definition is used only to state what the notebook does not do. *)

Fixpoint ascending (ts : list Z) : bool :=
  match ts with
  | a :: (b :: _) as rest => (a <? b)%Z && ascending rest
  | _ => true
  end.

Definition spec_well_formed (obs : list Observation) : bool :=
  match obs with
  | [] => false
  | _ :: _ => ascending (timestamp <$> obs)
  end.

(** ** The plot cell and frames in general *)

(** [df[cs]] for a list of column names, as the plot cell uses it before
    plotting: the float columns named in [cs], or, when one of them is
    missing, the KeyError of the library, for which [None] stands. *)
Definition select (df : DataFrame) (cs : list string)
  : option (gmap string (list (option Q))) :=
  if decide (Forall (λ c, is_Some (columns df !! c)) cs)
  then Some (filter (λ kv, kv.1 ∈ cs) (columns df))
  else None.

(** The plot cell's selection. *)
Definition plotted (df : DataFrame) : option (gmap string (list (option Q))) :=
  select df ["rolled_mean"; "harvest_period"; "germination_period"]%string.

(** A frame of the library has as many cells in every column as it has
    rows. *)
Definition aligned (df : DataFrame) : Prop :=
  ∀ c xs, columns df !! c = Some xs → length xs = nrows df.

(** The column [c] as a masked assignment finds it: the column itself, or
    the NaN column that is added first. *)
Definition prior (df : DataFrame) (c : string) : Series :=
  default (replicate (nrows df) NaN) (columns df !! c).

(** The frame that the labelling cell returns, when it returns, from the
    smoothed and the delta column it reads. *)
Definition label_result (p : Params) (df : DataFrame) (rm dm : list (option Q))
  : DataFrame :=
  setitem
    (setitem df "harvest_period"
       (assign (harvest_mask p rm dm) (ndvi_threshold p) (prior df "harvest_period")))
    "germination_period"
    (assign (germination_mask p rm dm) (ndvi_threshold p) (prior df "germination_period")).

(** A frame with the float column [xs] under the name [mean], as a CSV with
    gaps in the observations loads. *)
Definition with_mean (ts : list Z) (xs : Series) : DataFrame :=
  mkDataFrame ts {[ "mean"%string := xs ]}.

(** Five rows of which the second holds no observation. *)
Definition gappy : DataFrame :=
  with_mean [0; 1; 2; 3; 4]%Z [Some 0.3; NaN; Some 0.2; Some 0.1; Some 0.05]%Q.

(** Parameters with an index threshold so low that no rule holds on the
    series of the examples. *)
Definition strict : Params :=
  {| ndvi_threshold := 0.01; delta_threshold := 0.1; rolling_window := 14 |}.

(** ** The CSV file as it is read

    A field of the column [mean] of the CSV file is a finite number, blank,
    or a text: a field that [pd.read_csv] reads neither as a number nor as a
    missing value, so that it types the column as object.  [pd.read_csv]
    makes [mean] a float column, blank read as NaN, when no field is a text;
    with a text among the fields it makes an object column, on which the
    rolling mean of the smoothing cell raises the DataError of the library
    and the run ends there. *)

Inductive field : Type :=
| Number (q : Q)
| Blank
| Text (s : string).

Record Line : Type := mkLine {
  date : Z;
  mean_field : field
}.

Definition is_text (f : field) : bool :=
  match f with Text _ => true | _ => false end.

Definition to_float (f : field) : option Q :=
  match f with Number q => Some q | _ => NaN end.

(** The float column [mean], when [pd.read_csv] gives one. *)
Definition parse_mean (rows : list Line) : option Series :=
  if existsb is_text (mean_field <$> rows) then None
  else Some (to_float <$> (mean_field <$> rows)).

(** The loaded frame, when its column [mean] is a float column. *)
Definition load (rows : list Line) : option DataFrame :=
  xs ← parse_mean rows; Some (with_mean (date <$> rows) xs).

(** The load cell followed by the smoothing cell. *)
Definition smooth_csv (rows : list Line) : result DataFrame :=
  match load rows with
  | Some df => smooth df
  | None => Raise DataError
  end.

(** The load cell followed by the detector. *)
Definition detect_csv (p : Params) (rows : list Line) : result DataFrame :=
  match load rows with
  | Some df => detect p df
  | None => Raise DataError
  end.

(** The lines of a file that holds a series of numeric observations. *)
Definition lines (obs : list Observation) : list Line :=
  (λ o, mkLine (timestamp o) (Number (value o))) <$> obs.

(** The frames of a freshly loaded float column [xs] after the smoothing
    cell and after the labelling cell, in closed form. *)
Definition fresh_smoothed (ts : list Z) (xs : Series) : DataFrame :=
  setitem (setitem (with_mean ts xs) "rolled_mean" (rolling_mean window xs))
    "delta_mean" (diff (rolling_mean window xs)).

Definition fresh_annotated (p : Params) (ts : list Z) (xs : Series) : DataFrame :=
  label_result p (fresh_smoothed ts xs)
    (rolling_mean window xs) (diff (rolling_mean window xs)).

(** Five lines of which the second has a blank field; the same with a text
    in its place; five lines of the same observation, below the default
    index threshold. *)
Definition gappy_lines : list Line :=
  [mkLine 0 (Number 0.3); mkLine 1 Blank; mkLine 2 (Number 0.2);
   mkLine 3 (Number 0.1); mkLine 4 (Number 0.05)].

Definition broken_lines : list Line :=
  [mkLine 0 (Number 0.3); mkLine 1 (Text "n/a"); mkLine 2 (Number 0.2);
   mkLine 3 (Number 0.1); mkLine 4 (Number 0.05)].

Definition flat : list Observation := daily [0.1; 0.1; 0.1; 0.1; 0.1]%Q.

(** * Properties *)

(** ** Comparisons of float cells *)

Section float_facts.
Implicit Types (a b : Q).

Lemma Qlt_bool_iff a b : Qlt_bool a b = true ↔ (a < b)%Q.
Proof. unfold Qlt_bool, Qlt. apply Z.ltb_lt. Qed.

End float_facts.

(** ** Rolling mean and first difference *)

Section series_facts.
Implicit Types (xs : list (option Q)) (vs : list Q) (w i : nat).

Lemma length_rolling_mean w xs : length (rolling_mean w xs) = length xs.
Proof. unfold rolling_mean. apply length_imap. Qed.

Lemma lookup_rolling_mean w xs i :
  i < length xs → rolling_mean w xs !! i = Some (mean_at w i xs).
Proof.
  intros Hi. unfold rolling_mean. rewrite list_lookup_imap.
  destruct (lookup_lt_is_Some_2 xs i Hi) as [x ->]. reflexivity.
Qed.

Lemma valid_values vs : valid (Some <$> vs) = vs.
Proof.
  unfold valid. induction vs as [|v vs IH]; simpl; [reflexivity|].
  f_equal. exact IH.
Qed.

Lemma window_at_values w i vs :
  window_at w i (Some <$> vs) = Some <$> drop (S i - w) (take (S i) vs).
Proof. unfold window_at. by rewrite <- fmap_take, <- fmap_drop. Qed.

(** On a series without NaN the rolling mean has a value exactly from row
    [w - 1] on, the mean of the [w] observations that end at the row. *)
Lemma mean_at_values w i vs :
  i < length vs → 0 < w →
  mean_at w i (Some <$> vs) =
    if decide (w ≤ S i) then Some (Qmean (drop (S i - w) (take (S i) vs))) else NaN.
Proof.
  intros Hi Hw. unfold mean_at.
  rewrite window_at_values, valid_values.
  assert (length (drop (S i - w) (take (S i) vs)) = S i - (S i - w)) as Hlen.
  { rewrite length_drop, length_take. lia. }
  rewrite Hlen. repeat case_decide; try reflexivity; lia.
Qed.

Lemma length_window w i vs :
  i < length vs → w ≤ S i → length (drop (S i - w) (take (S i) vs)) = w.
Proof. intros Hi Hw. rewrite length_drop, length_take. lia. Qed.

Lemma length_shift xs : length (shift xs) = length xs.
Proof. unfold shift. rewrite length_take. simpl. lia. Qed.

Lemma lookup_shift_0 xs : xs ≠ [] → shift xs !! 0 = Some NaN.
Proof. destruct xs; [done|]. reflexivity. Qed.

Lemma lookup_shift_S xs i : S i < length xs → shift xs !! S i = xs !! i.
Proof. intros Hi. unfold shift. rewrite lookup_take_lt by exact Hi. reflexivity. Qed.

Lemma length_diff xs : length (diff xs) = length xs.
Proof. unfold diff. rewrite length_zip_with, length_shift. lia. Qed.

Lemma lookup_diff_0 xs : xs ≠ [] → diff xs !! 0 = Some NaN.
Proof.
  intros Hne. unfold diff. rewrite lookup_zip_with, lookup_shift_0 by exact Hne.
  destruct xs as [|[x|] xs]; [done| |]; reflexivity.
Qed.

Lemma lookup_diff_S xs i x :
  xs !! S i = Some x →
  ∃ x', xs !! i = Some x' ∧ diff xs !! S i = Some (Float.sub x x').
Proof.
  intros Hx. pose proof (lookup_lt_Some _ _ _ Hx) as Hlt.
  destruct (lookup_lt_is_Some_2 xs i) as [x' Hx']; [lia|].
  exists x'. split; [exact Hx'|].
  unfold diff. rewrite lookup_zip_with, Hx, lookup_shift_S, Hx' by exact Hlt.
  reflexivity.
Qed.

End series_facts.

(** ** Masks and masked assignment *)

Section mask_facts.
Implicit Types (p : Params) (rm dm : list (option Q)) (i : nat).

Lemma lookup_harvest_mask p rm dm i r d :
  rm !! i = Some r → dm !! i = Some d →
  harvest_mask p rm dm !! i =
    Some (Float.lt r (Some (ndvi_threshold p))
          && Float.le (Float.abs d) (Some (delta_threshold p))
          && Float.lt d (Some 0%Q)).
Proof.
  intros Hr Hd. unfold harvest_mask, band, Series.lt, Series.le, Series.abs.
  rewrite !lookup_zip_with, !list_lookup_fmap, Hr, Hd. reflexivity.
Qed.

Lemma lookup_germination_mask p rm dm i r d :
  rm !! i = Some r → dm !! i = Some d →
  germination_mask p rm dm !! i =
    Some (Float.lt r (Some (ndvi_threshold p))
          && Float.lt (Float.abs d) (Some (delta_threshold p))
          && Float.gt d (Some 0%Q)).
Proof.
  intros Hr Hd. unfold germination_mask, band, Series.lt, Series.gt, Series.abs.
  rewrite !lookup_zip_with, !list_lookup_fmap, Hr, Hd. reflexivity.
Qed.

Lemma length_harvest_mask p rm dm :
  length dm = length rm → length (harvest_mask p rm dm) = length rm.
Proof.
  intros H. unfold harvest_mask, band, Series.lt, Series.le, Series.abs.
  rewrite !length_zip_with, !length_fmap. lia.
Qed.

Lemma length_germination_mask p rm dm :
  length dm = length rm → length (germination_mask p rm dm) = length rm.
Proof.
  intros H. unfold germination_mask, band, Series.lt, Series.gt, Series.abs.
  rewrite !length_zip_with, !length_fmap. lia.
Qed.

Lemma lookup_assign_fresh (mask : list bool) (v : Q) n i (m : bool) :
  mask !! i = Some m → i < n →
  assign mask v (replicate n NaN) !! i = Some (if m then Some v else NaN).
Proof.
  intros Hm Hi. unfold assign.
  rewrite lookup_zip_with, Hm, lookup_replicate_2 by exact Hi. reflexivity.
Qed.

Lemma length_assign (mask : list bool) (v : Q) (old : list (option Q)) :
  length mask = length old → length (assign mask v old) = length old.
Proof. intros H. unfold assign. rewrite length_zip_with. lia. Qed.

End mask_facts.

(** ** The outcome of the cells on a loaded series *)

Section cells.
Implicit Types (p : Params) (obs : list Observation).

Lemma bind_Ok {A B} (a : A) (k : A → result B) : Ok a ≫= k = k a.
Proof. reflexivity. Qed.

Lemma getitem_Some (df : DataFrame) c xs :
  columns df !! c = Some xs → getitem df c = Ok xs.
Proof. intros H. unfold getitem. by rewrite H. Qed.

Lemma loc_setitem_fresh (df : DataFrame) mask c v :
  columns df !! c = None → timestamps df ≠ [] →
  loc_setitem df mask c v =
    Ok (setitem df c (assign mask v (replicate (nrows df) NaN))).
Proof.
  intros Hc Hts. unfold loc_setitem, nrows. rewrite Hc.
  case_decide as Hz; [|reflexivity].
  destruct (timestamps df); [done | discriminate].
Qed.

Lemma loc_setitem_fresh_nil (df : DataFrame) mask c v :
  columns df !! c = None → timestamps df = [] →
  loc_setitem df mask c v =
    Raise (ValueError "cannot set a frame with no defined index and a scalar").
Proof. intros Hc Hts. unfold loc_setitem, nrows. by rewrite Hc, Hts. Qed.

Lemma read_csv_mean obs :
  read_csv obs = mkDataFrame (timestamp <$> obs) {["mean"%string := Some <$> (value <$> obs)]}.
Proof. unfold read_csv. by rewrite <- list_fmap_compose. Qed.

Lemma smooth_read_csv obs :
  smooth (read_csv obs) = Ok (mkDataFrame (timestamp <$> obs) (smoothed (value <$> obs))).
Proof.
  rewrite read_csv_mean. unfold smooth.
  rewrite (getitem_Some _ "mean" (Some <$> (value <$> obs))), bind_Ok
    by apply lookup_singleton_eq.
  rewrite (getitem_Some _ "rolled_mean" (rolled (value <$> obs))), bind_Ok
    by apply lookup_insert_eq.
  reflexivity.
Qed.

Lemma smoothed_lookup_rolled vs : smoothed vs !! "rolled_mean"%string = Some (rolled vs).
Proof. unfold smoothed. by rewrite lookup_insert_ne, lookup_insert_eq. Qed.

Lemma smoothed_lookup_delta vs : smoothed vs !! "delta_mean"%string = Some (delta vs).
Proof. unfold smoothed. by rewrite lookup_insert_eq. Qed.

Lemma smoothed_lookup_mean vs : smoothed vs !! "mean"%string = Some (Some <$> vs).
Proof. unfold smoothed. by rewrite !lookup_insert_ne, lookup_singleton_eq. Qed.

Lemma smoothed_lookup_other vs c :
  c ≠ "mean"%string → c ≠ "rolled_mean"%string → c ≠ "delta_mean"%string →
  smoothed vs !! c = None.
Proof.
  intros H1 H2 H3. unfold smoothed.
  by rewrite !lookup_insert_ne, lookup_singleton_ne.
Qed.

Lemma label_smoothed p ts vs :
  ts ≠ [] →
  label p (mkDataFrame ts (smoothed vs)) =
    Ok (mkDataFrame ts
          (<["germination_period"%string :=
               assign (germination_mask p (rolled vs) (delta vs)) (ndvi_threshold p)
                 (replicate (length ts) NaN)]>
             (<["harvest_period"%string :=
                  assign (harvest_mask p (rolled vs) (delta vs)) (ndvi_threshold p)
                    (replicate (length ts) NaN)]> (smoothed vs)))).
Proof.
  intros Hts. unfold label.
  rewrite (getitem_Some _ "rolled_mean" (rolled vs)), bind_Ok by apply smoothed_lookup_rolled.
  rewrite (getitem_Some _ "delta_mean" (delta vs)), bind_Ok by apply smoothed_lookup_delta.
  rewrite loc_setitem_fresh, bind_Ok
    by (done || (simpl; by apply smoothed_lookup_other)).
  rewrite (getitem_Some _ "rolled_mean" (rolled vs)), bind_Ok
    by (unfold setitem; simpl; rewrite lookup_insert_ne by done;
        apply smoothed_lookup_rolled).
  rewrite (getitem_Some _ "delta_mean" (delta vs)), bind_Ok
    by (unfold setitem; simpl; rewrite lookup_insert_ne by done;
        apply smoothed_lookup_delta).
  rewrite loc_setitem_fresh
    by (done || (unfold setitem; simpl; rewrite lookup_insert_ne by done;
                 by apply smoothed_lookup_other)).
  reflexivity.
Qed.

Lemma label_smoothed_nil p vs :
  label p (mkDataFrame [] (smoothed vs)) =
    Raise (ValueError "cannot set a frame with no defined index and a scalar").
Proof.
  unfold label.
  rewrite (getitem_Some _ "rolled_mean" (rolled vs)), bind_Ok by apply smoothed_lookup_rolled.
  rewrite (getitem_Some _ "delta_mean" (delta vs)), bind_Ok by apply smoothed_lookup_delta.
  rewrite loc_setitem_fresh_nil
    by (done || (simpl; by apply smoothed_lookup_other)).
  reflexivity.
Qed.

(** The detector on a non-empty series returns the annotated frame. *)
Lemma detect_read_csv p obs :
  obs ≠ [] →
  detect p (read_csv obs) =
    Ok (mkDataFrame (timestamp <$> obs) (annotated p (value <$> obs))).
Proof.
  intros Hne. unfold detect. rewrite smooth_read_csv, bind_Ok.
  rewrite label_smoothed by (destruct obs; done).
  unfold annotated, harvest, germination. by rewrite !length_fmap.
Qed.

(** On the empty series the labelling cell raises. *)
Lemma detect_read_csv_nil p :
  detect p (read_csv []) =
    Raise (ValueError "cannot set a frame with no defined index and a scalar").
Proof. reflexivity. Qed.

End cells.

(** ** The derived columns, row by row *)

Section columns_facts.
Implicit Types (p : Params) (obs : list Observation) (vs : list Q) (i : nat).

Lemma length_rolled vs : length (rolled vs) = length vs.
Proof. unfold rolled. by rewrite length_rolling_mean, length_fmap. Qed.

Lemma length_delta vs : length (delta vs) = length vs.
Proof. unfold delta. by rewrite length_diff, length_rolled. Qed.

Lemma lookup_rolled vs i :
  i < length vs →
  rolled vs !! i =
    Some (if decide (window ≤ S i)
          then Some (Qmean (drop (S i - window) (take (S i) vs))) else NaN).
Proof.
  intros Hi. unfold rolled.
  rewrite lookup_rolling_mean by (by rewrite length_fmap).
  rewrite mean_at_values by (done || (unfold window; lia)). reflexivity.
Qed.

Lemma lookup_delta_0 vs : vs ≠ [] → delta vs !! 0 = Some NaN.
Proof.
  intros Hne. apply lookup_diff_0. intros Hnil.
  apply (f_equal length) in Hnil. rewrite length_rolled in Hnil.
  destruct vs; [done | discriminate].
Qed.

Lemma lookup_delta_S vs i :
  S i < length vs →
  ∃ r r', rolled vs !! S i = Some r ∧ rolled vs !! i = Some r'
          ∧ delta vs !! S i = Some (Float.sub r r').
Proof.
  intros Hi.
  destruct (lookup_lt_is_Some_2 (rolled vs) (S i)) as [r Hr].
  { by rewrite length_rolled. }
  destruct (lookup_diff_S _ _ _ Hr) as (r' & Hr' & Hd).
  exists r, r'. by repeat split.
Qed.

Lemma lookup_harvest p vs i r d :
  rolled vs !! i = Some r → delta vs !! i = Some d →
  harvest p vs !! i =
    Some (if Float.lt r (Some (ndvi_threshold p))
             && Float.le (Float.abs d) (Some (delta_threshold p))
             && Float.lt d (Some 0%Q)
          then Some (ndvi_threshold p) else NaN).
Proof.
  intros Hr Hd. unfold harvest.
  apply lookup_assign_fresh; [by apply lookup_harvest_mask|].
  apply lookup_lt_Some in Hr. by rewrite length_rolled in Hr.
Qed.

Lemma lookup_germination p vs i r d :
  rolled vs !! i = Some r → delta vs !! i = Some d →
  germination p vs !! i =
    Some (if Float.lt r (Some (ndvi_threshold p))
             && Float.lt (Float.abs d) (Some (delta_threshold p))
             && Float.gt d (Some 0%Q)
          then Some (ndvi_threshold p) else NaN).
Proof.
  intros Hr Hd. unfold germination.
  apply lookup_assign_fresh; [by apply lookup_germination_mask|].
  apply lookup_lt_Some in Hr. by rewrite length_rolled in Hr.
Qed.

Lemma length_harvest p vs : length (harvest p vs) = length vs.
Proof.
  unfold harvest. rewrite length_assign; rewrite ?length_replicate; [done|].
  rewrite length_harvest_mask, length_rolled; [done|].
  by rewrite length_delta, length_rolled.
Qed.

Lemma length_germination p vs : length (germination p vs) = length vs.
Proof.
  unfold germination. rewrite length_assign; rewrite ?length_replicate; [done|].
  rewrite length_germination_mask, length_rolled; [done|].
  by rewrite length_delta, length_rolled.
Qed.

Lemma annotated_lookup_germination p vs :
  annotated p vs !! "germination_period"%string = Some (germination p vs).
Proof. unfold annotated. by rewrite lookup_insert_eq. Qed.

Lemma annotated_lookup_harvest p vs :
  annotated p vs !! "harvest_period"%string = Some (harvest p vs).
Proof. unfold annotated. by rewrite lookup_insert_ne, lookup_insert_eq. Qed.

Lemma annotated_lookup_smoothed p vs c :
  c ≠ "harvest_period"%string → c ≠ "germination_period"%string →
  annotated p vs !! c = smoothed vs !! c.
Proof. intros H1 H2. unfold annotated. by rewrite !lookup_insert_ne. Qed.

Lemma annotated_lookup_rolled p vs :
  annotated p vs !! "rolled_mean"%string = Some (rolled vs).
Proof. rewrite annotated_lookup_smoothed by done. apply smoothed_lookup_rolled. Qed.

Lemma annotated_lookup_delta p vs :
  annotated p vs !! "delta_mean"%string = Some (delta vs).
Proof. rewrite annotated_lookup_smoothed by done. apply smoothed_lookup_delta. Qed.

(** A cell of the detector's outcome exists only when the series is not
    empty, and then it is the cell of the annotated columns. *)
Lemma cell_detect p obs c i :
  obs ≠ [] →
  cell c i (detect p (read_csv obs)) = (annotated p (value <$> obs) !! c) ≫= (.!! i).
Proof. intros Hne. by rewrite detect_read_csv. Qed.

Lemma cell_detect_Some p obs c i x :
  cell c i (detect p (read_csv obs)) = Some x →
  obs ≠ [] ∧ ∃ xs, annotated p (value <$> obs) !! c = Some xs ∧ xs !! i = Some x.
Proof.
  intros Hc. assert (obs ≠ []) as Hne.
  { intros ->. rewrite detect_read_csv_nil in Hc. discriminate. }
  split; [exact Hne|]. rewrite cell_detect in Hc by exact Hne.
  destruct (annotated p (value <$> obs) !! c) as [xs|]; [|discriminate].
  by exists xs.
Qed.

Lemma cell_rolled p obs i x :
  cell "rolled_mean" i (detect p (read_csv obs)) = Some x →
  obs ≠ [] ∧ rolled (value <$> obs) !! i = Some x.
Proof.
  intros (Hne & xs & Hxs & Hx)%cell_detect_Some. split; [done|].
  rewrite annotated_lookup_rolled in Hxs. by simplify_eq.
Qed.

Lemma cell_delta p obs i x :
  cell "delta_mean" i (detect p (read_csv obs)) = Some x →
  obs ≠ [] ∧ delta (value <$> obs) !! i = Some x.
Proof.
  intros (Hne & xs & Hxs & Hx)%cell_detect_Some. split; [done|].
  rewrite annotated_lookup_delta in Hxs. by simplify_eq.
Qed.

Lemma cell_harvest p obs i :
  obs ≠ [] →
  cell "harvest_period" i (detect p (read_csv obs)) = harvest p (value <$> obs) !! i.
Proof. intros Hne. by rewrite cell_detect, annotated_lookup_harvest. Qed.

Lemma cell_germination p obs i :
  obs ≠ [] →
  cell "germination_period" i (detect p (read_csv obs)) =
    germination p (value <$> obs) !! i.
Proof. intros Hne. by rewrite cell_detect, annotated_lookup_germination. Qed.

End columns_facts.

(** ** The labelling rules *)

Section rules.
Implicit Types (p : Params) (obs : list Observation) (i : nat) (s d : Q).

Lemma harvest_rule_true p s d :
  Float.lt (Some s) (Some (ndvi_threshold p))
  && Float.le (Float.abs (Some d)) (Some (delta_threshold p))
  && Float.lt (Some d) (Some 0%Q) = true
  ↔ (s < ndvi_threshold p ∧ Qabs d <= delta_threshold p ∧ d < 0)%Q.
Proof.
  simpl. rewrite !andb_true_iff, !Qlt_bool_iff, Qle_bool_iff. tauto.
Qed.

Lemma germination_rule_true p s d :
  Float.lt (Some s) (Some (ndvi_threshold p))
  && Float.lt (Float.abs (Some d)) (Some (delta_threshold p))
  && Float.gt (Some d) (Some 0%Q) = true
  ↔ (s < ndvi_threshold p ∧ Qabs d < delta_threshold p ∧ 0 < d)%Q.
Proof.
  unfold Float.gt. simpl. rewrite !andb_true_iff, !Qlt_bool_iff. tauto.
Qed.

Lemma labelled_if (b : bool) (v : Q) (x : option (option Q)) :
  x = Some (if b then Some v else NaN) →
  ((∃ v', x = Some (Some v')) ↔ b = true) ∧ (b = false → x = Some NaN)
  ∧ (b = true → x = Some (Some v)).
Proof.
  intros ->. destruct b; (split; [split|split]); try done; eauto.
  intros [v' [=]].
Qed.

End rules.

(** C1.  At a row where the smoothed value [s] and the delta [d] both exist,
    the harvest label is assigned (the harvest column holds the threshold)
    exactly when [s < ndvi_threshold], [|d| <= delta_threshold] and [d < 0];
    otherwise the harvest column is NaN there. *)
Theorem harvest_label_iff (p : Params) (obs : list Observation) (i : nat) (s d : Q) :
  cell "rolled_mean" i (detect p (read_csv obs)) = Some (Some s) →
  cell "delta_mean" i (detect p (read_csv obs)) = Some (Some d) →
  (labelled "harvest_period" i (detect p (read_csv obs))
     ↔ (s < ndvi_threshold p ∧ Qabs d <= delta_threshold p ∧ d < 0)%Q)
  ∧ (labelled "harvest_period" i (detect p (read_csv obs)) →
       cell "harvest_period" i (detect p (read_csv obs)) = Some (Some (ndvi_threshold p)))
  ∧ (¬ labelled "harvest_period" i (detect p (read_csv obs)) →
       cell "harvest_period" i (detect p (read_csv obs)) = Some NaN).
Proof.
  intros [Hne Hs]%cell_rolled [_ Hd]%cell_delta.
  unfold labelled. rewrite cell_harvest by exact Hne.
  pose proof (lookup_harvest p _ _ _ _ Hs Hd) as Hh.
  apply labelled_if in Hh as (Hiff & Hnan & Hthr).
  rewrite harvest_rule_true in Hiff.
  split; [exact Hiff|]. split.
  - intros Hl. apply Hthr, harvest_rule_true, Hiff, Hl.
  - intros Hn. apply Hnan. apply not_true_is_false.
    intros Hb. apply Hn, Hiff, harvest_rule_true, Hb.
Qed.

(** C2.  At a row where the smoothed value [s] and the delta [d] both exist,
    the germination label is assigned exactly when [s < ndvi_threshold],
    [|d| < delta_threshold] and [0 < d]; when [|d|] equals the delta
    threshold the row never gets the germination label, while a falling
    delta below the index threshold still gets the harvest label. *)
Theorem germination_label_iff (p : Params) (obs : list Observation) (i : nat) (s d : Q) :
  cell "rolled_mean" i (detect p (read_csv obs)) = Some (Some s) →
  cell "delta_mean" i (detect p (read_csv obs)) = Some (Some d) →
  (labelled "germination_period" i (detect p (read_csv obs))
     ↔ (s < ndvi_threshold p ∧ Qabs d < delta_threshold p ∧ 0 < d)%Q)
  ∧ ((Qabs d == delta_threshold p)%Q →
       cell "germination_period" i (detect p (read_csv obs)) = Some NaN)
  ∧ ((Qabs d == delta_threshold p)%Q → (s < ndvi_threshold p)%Q → (d < 0)%Q →
       cell "harvest_period" i (detect p (read_csv obs)) = Some (Some (ndvi_threshold p))).
Proof.
  intros [Hne Hs]%cell_rolled [_ Hd]%cell_delta.
  unfold labelled. rewrite cell_germination, cell_harvest by exact Hne.
  pose proof (lookup_germination p _ _ _ _ Hs Hd) as Hg.
  pose proof (lookup_harvest p _ _ _ _ Hs Hd) as Hh.
  apply labelled_if in Hg as (Hiff & Hnan & _).
  apply labelled_if in Hh as (_ & _ & Hthr).
  rewrite germination_rule_true in Hiff.
  split; [exact Hiff|]. split.
  - intros Heq. apply Hnan, not_true_is_false.
    intros (_ & Hlt & _)%germination_rule_true.
    rewrite Heq in Hlt. by apply Qlt_irrefl in Hlt.
  - intros Heq Hlt Hneg. apply Hthr, harvest_rule_true.
    repeat split; [exact Hlt | | exact Hneg].
    rewrite Heq. apply Qle_refl.
Qed.

(** ** Where the derived columns have values *)

Section defined_rows.
Implicit Types (p : Params) (obs : list Observation) (vs : list Q) (i : nat).

Lemma rolled_Some_iff vs i s :
  rolled vs !! i = Some (Some s) ↔
  i < length vs ∧ window ≤ S i ∧ s = Qmean (drop (S i - window) (take (S i) vs)).
Proof.
  split.
  - intros Hs. pose proof (lookup_lt_Some _ _ _ Hs) as Hi.
    rewrite length_rolled in Hi. rewrite lookup_rolled in Hs by exact Hi.
    case_decide; [|discriminate]. by simplify_eq.
  - intros (Hi & Hw & ->). rewrite lookup_rolled by exact Hi.
    by rewrite decide_True.
Qed.

(** A delta exists at a row exactly when the smoothed value exists there
    and at the row before, and it is their difference. *)
Lemma delta_Some_iff vs i d :
  delta vs !! i = Some (Some d) ↔
  ∃ j s s', i = S j ∧ rolled vs !! S j = Some (Some s)
            ∧ rolled vs !! j = Some (Some s') ∧ d = (s - s')%Q.
Proof.
  split.
  - intros Hd. pose proof (lookup_lt_Some _ _ _ Hd) as Hi.
    rewrite length_delta in Hi. destruct i as [|j].
    { rewrite lookup_delta_0 in Hd; [discriminate|]. by destruct vs. }
    destruct (lookup_delta_S vs j Hi) as (r & r' & Hr & Hr' & Hsub).
    rewrite Hsub in Hd. destruct r as [s|], r' as [s'|]; simplify_eq/=.
    by exists j, s, s'.
  - intros (j & s & s' & -> & Hs & Hs' & ->).
    pose proof (lookup_lt_Some _ _ _ Hs) as Hi. rewrite length_rolled in Hi.
    destruct (lookup_delta_S vs j Hi) as (r & r' & Hr & Hr' & Hsub).
    by simplify_eq.
Qed.

(** A label is only ever written where the smoothed value and the delta
    exist and satisfy the rule, and what is written is the threshold. *)
Lemma harvest_Some_inv p vs i v :
  harvest p vs !! i = Some (Some v) →
  ∃ s d, rolled vs !! i = Some (Some s) ∧ delta vs !! i = Some (Some d)
         ∧ v = ndvi_threshold p
         ∧ (s < ndvi_threshold p ∧ Qabs d <= delta_threshold p ∧ d < 0)%Q.
Proof.
  intros Hv. pose proof (lookup_lt_Some _ _ _ Hv) as Hi.
  rewrite length_harvest in Hi.
  destruct (lookup_lt_is_Some_2 (rolled vs) i) as [r Hr]; [by rewrite length_rolled|].
  destruct (lookup_lt_is_Some_2 (delta vs) i) as [d' Hd]; [by rewrite length_delta|].
  rewrite (lookup_harvest p vs i r d' Hr Hd) in Hv.
  destruct r as [s|], d' as [d|]; simpl in Hv;
    rewrite ?andb_false_r in Hv; try discriminate.
  destruct (Qlt_bool s (ndvi_threshold p) && Qle_bool (Qabs d) (delta_threshold p)
            && Qlt_bool d 0) eqn:Hb; [|discriminate].
  exists s, d. repeat split; try done; try congruence;
    apply (harvest_rule_true p s d) in Hb; tauto.
Qed.

Lemma germination_Some_inv p vs i v :
  germination p vs !! i = Some (Some v) →
  ∃ s d, rolled vs !! i = Some (Some s) ∧ delta vs !! i = Some (Some d)
         ∧ v = ndvi_threshold p
         ∧ (s < ndvi_threshold p ∧ Qabs d < delta_threshold p ∧ 0 < d)%Q.
Proof.
  intros Hv. pose proof (lookup_lt_Some _ _ _ Hv) as Hi.
  rewrite length_germination in Hi.
  destruct (lookup_lt_is_Some_2 (rolled vs) i) as [r Hr]; [by rewrite length_rolled|].
  destruct (lookup_lt_is_Some_2 (delta vs) i) as [d' Hd]; [by rewrite length_delta|].
  rewrite (lookup_germination p vs i r d' Hr Hd) in Hv.
  destruct r as [s|], d' as [d|]; unfold Float.gt in Hv; simpl in Hv;
    rewrite ?andb_false_r in Hv; try discriminate.
  destruct (Qlt_bool s (ndvi_threshold p) && Qlt_bool (Qabs d) (delta_threshold p)
            && Qlt_bool 0 d) eqn:Hb; [|discriminate].
  exists s, d. repeat split; try done; try congruence;
    apply (germination_rule_true p s d) in Hb; tauto.
Qed.

(** A cell of a label column is the threshold or NaN. *)
Lemma harvest_cases p vs i :
  i < length vs →
  harvest p vs !! i = Some (Some (ndvi_threshold p)) ∨ harvest p vs !! i = Some NaN.
Proof.
  intros Hi.
  destruct (lookup_lt_is_Some_2 (rolled vs) i) as [r Hr]; [by rewrite length_rolled|].
  destruct (lookup_lt_is_Some_2 (delta vs) i) as [d Hd]; [by rewrite length_delta|].
  rewrite (lookup_harvest p vs i r d Hr Hd). case (_ && _); [by left | by right].
Qed.

Lemma germination_cases p vs i :
  i < length vs →
  germination p vs !! i = Some (Some (ndvi_threshold p))
  ∨ germination p vs !! i = Some NaN.
Proof.
  intros Hi.
  destruct (lookup_lt_is_Some_2 (rolled vs) i) as [r Hr]; [by rewrite length_rolled|].
  destruct (lookup_lt_is_Some_2 (delta vs) i) as [d Hd]; [by rewrite length_delta|].
  rewrite (lookup_germination p vs i r d Hr Hd). case (_ && _); [by left | by right].
Qed.

(** A labelled row of the outcome, seen in the closed forms. *)
Lemma labelled_inv p obs c i :
  c = "harvest_period"%string ∨ c = "germination_period"%string →
  labelled c i (detect p (read_csv obs)) →
  obs ≠ [] ∧ ∃ v, (harvest p (value <$> obs) !! i = Some (Some v)
                   ∨ germination p (value <$> obs) !! i = Some (Some v)).
Proof.
  intros Hc [v Hv]. apply cell_detect_Some in Hv as (Hne & xs & Hxs & Hx).
  split; [exact Hne|]. exists v. destruct Hc as [-> | ->].
  - rewrite annotated_lookup_harvest in Hxs. left. by simplify_eq.
  - rewrite annotated_lookup_germination in Hxs. right. by simplify_eq.
Qed.

End defined_rows.

(** ** Constant series *)

Section constant.
Implicit Types (p : Params) (vs l : list Q) (c : Q) (i : nat).

Lemma Qsum_const l c :
  Forall (λ v, (v == c)%Q) l → (Qsum l == inject_Z (Z.of_nat (length l)) * c)%Q.
Proof.
  unfold Qsum. induction 1 as [|v l Hv _ IH]; simpl foldr; simpl length.
  - vm_compute. reflexivity.
  - rewrite IH, Hv, Nat2Z.inj_succ, <- Z.add_1_r, inject_Z_plus. ring.
Qed.

Lemma Qmean_const l c :
  l ≠ [] → Forall (λ v, (v == c)%Q) l → (Qmean l == c)%Q.
Proof.
  intros Hne Hall. unfold Qmean. rewrite (Qsum_const l c Hall).
  field. destruct l as [|v l]; [done|].
  change 0%Q with (inject_Z 0). rewrite inject_Z_injective.
  simpl length. lia.
Qed.

Lemma rolled_const vs c i s :
  Forall (λ v, (v == c)%Q) vs → rolled vs !! i = Some (Some s) → (s == c)%Q.
Proof.
  intros Hall (Hi & Hw & ->)%rolled_Some_iff. apply Qmean_const.
  - intros Hnil. apply (f_equal length) in Hnil.
    rewrite length_window in Hnil by done. discriminate.
  - by apply Forall_drop, Forall_take.
Qed.

Lemma delta_const vs c i d :
  Forall (λ v, (v == c)%Q) vs → delta vs !! i = Some (Some d) → (d == 0)%Q.
Proof.
  intros Hall (j & s & s' & -> & Hs & Hs' & ->)%delta_Some_iff.
  rewrite (rolled_const vs c _ s Hall Hs), (rolled_const vs c _ s' Hall Hs').
  ring.
Qed.

Lemma harvest_const p vs c i :
  Forall (λ v, (v == c)%Q) vs → i < length vs → harvest p vs !! i = Some NaN.
Proof.
  intros Hall Hi. destruct (harvest_cases p vs i Hi) as [Hv | Hn]; [|exact Hn].
  apply harvest_Some_inv in Hv as (s & d & _ & Hd & _ & _ & _ & Hneg).
  rewrite (delta_const vs c i d Hall Hd) in Hneg. by apply Qlt_irrefl in Hneg.
Qed.

Lemma germination_const p vs c i :
  Forall (λ v, (v == c)%Q) vs → i < length vs → germination p vs !! i = Some NaN.
Proof.
  intros Hall Hi. destruct (germination_cases p vs i Hi) as [Hv | Hn]; [|exact Hn].
  apply germination_Some_inv in Hv as (s & d & _ & Hd & _ & _ & _ & Hpos).
  rewrite (delta_const vs c i d Hall Hd) in Hpos. by apply Qlt_irrefl in Hpos.
Qed.

Lemma all_NaN (xs : list (option Q)) n :
  length xs = n → (∀ i, i < n → xs !! i = Some NaN) → xs = replicate n NaN.
Proof.
  intros Hlen Hall. apply list_eq. intros i.
  destruct (decide (i < n)) as [Hi | Hi].
  - by rewrite Hall, lookup_replicate_2.
  - rewrite !lookup_ge_None_2; [done | rewrite length_replicate; lia | lia].
Qed.

End constant.

(** C8.  On a series whose values are all equal, every delta that exists is
    zero, no row is labelled, and on a non-empty such series the detector
    returns with both label columns NaN on every row. *)
Theorem constant_series_unlabelled (p : Params) (obs : list Observation) (c : Q) :
  (∀ o, o ∈ obs → (value o == c)%Q) →
  (∀ i d, cell "delta_mean" i (smooth (read_csv obs)) = Some (Some d) → (d == 0)%Q)
  ∧ (∀ i d, cell "delta_mean" i (detect p (read_csv obs)) = Some (Some d) → (d == 0)%Q)
  ∧ (∀ i, ¬ labelled "harvest_period" i (detect p (read_csv obs)))
  ∧ (∀ i, ¬ labelled "germination_period" i (detect p (read_csv obs)))
  ∧ (obs ≠ [] →
       column "harvest_period" (detect p (read_csv obs))
         = Some (replicate (length obs) NaN)
       ∧ column "germination_period" (detect p (read_csv obs))
         = Some (replicate (length obs) NaN)).
Proof.
  intros Hconst.
  assert (Forall (λ v, (v == c)%Q) (value <$> obs)) as Hall.
  { apply Forall_fmap, Forall_forall. intros o Ho. by apply Hconst. }
  repeat split.
  - intros i d. rewrite smooth_read_csv. unfold cell; simpl.
    rewrite smoothed_lookup_delta; simpl. by apply (delta_const _ c i).
  - intros i d [_ Hd]%cell_delta. exact (delta_const _ c i d Hall Hd).
  - intros i [v Hv]. apply cell_detect_Some in Hv as (Hne & xs & Hxs & Hx).
    rewrite annotated_lookup_harvest in Hxs. simplify_eq.
    pose proof (lookup_lt_Some _ _ _ Hx) as Hi. rewrite length_harvest in Hi.
    by rewrite (harvest_const p _ c i Hall Hi) in Hx.
  - intros i [v Hv]. apply cell_detect_Some in Hv as (Hne & xs & Hxs & Hx).
    rewrite annotated_lookup_germination in Hxs. simplify_eq.
    pose proof (lookup_lt_Some _ _ _ Hx) as Hi. rewrite length_germination in Hi.
    by rewrite (germination_const p _ c i Hall Hi) in Hx.
  - rewrite detect_read_csv by done. simpl. rewrite annotated_lookup_harvest.
    f_equal. apply all_NaN; [by rewrite length_harvest, length_fmap|].
    intros i Hi. apply (harvest_const p _ c); [done | by rewrite length_fmap].
  - rewrite detect_read_csv by done. simpl. rewrite annotated_lookup_germination.
    f_equal. apply all_NaN; [by rewrite length_germination, length_fmap|].
    intros i Hi. apply (germination_const p _ c); [done | by rewrite length_fmap].
Qed.

(** ** What the labelling cell leaves alone *)

Section frame.
Implicit Types (p : Params) (df : DataFrame) (c : string).

Lemma bind_Ok_inv {A B} (r : result A) (k : A → result B) (b : B) :
  r ≫= k = Ok b → ∃ a, r = Ok a ∧ k a = Ok b.
Proof. destruct r as [a|e]; [by exists a | discriminate]. Qed.

Lemma loc_setitem_frame df mask c v df' :
  loc_setitem df mask c v = Ok df' →
  timestamps df' = timestamps df
  ∧ ∀ c', c' ≠ c → columns df' !! c' = columns df !! c'.
Proof.
  unfold loc_setitem, setitem. intros H.
  destruct (columns df !! c) as [old|]; [|case_decide]; simplify_eq/=;
    (split; [done|]); intros c' Hc'; by rewrite lookup_insert_ne.
Qed.

(** The labelling cell changes no timestamp and no column other than the
    two label columns, on any frame. *)
Lemma label_frame p df df' :
  label p df = Ok df' →
  timestamps df' = timestamps df
  ∧ ∀ c, c ≠ "harvest_period"%string → c ≠ "germination_period"%string →
         columns df' !! c = columns df !! c.
Proof.
  unfold label. intros H.
  apply bind_Ok_inv in H as (rm & _ & H). apply bind_Ok_inv in H as (dm & _ & H).
  apply bind_Ok_inv in H as (df1 & H1 & H).
  apply bind_Ok_inv in H as (rm' & _ & H). apply bind_Ok_inv in H as (dm' & _ & H).
  apply loc_setitem_frame in H1 as [Ht1 Hc1].
  apply loc_setitem_frame in H as [Ht2 Hc2].
  split; [congruence|]. intros c Hh Hg. by rewrite Hc2, Hc1.
Qed.

(** The columns of the outcome are a function of the values alone. *)
Lemma columns_detect p (obs : list Observation) :
  columns <$> detect p (read_csv obs) =
    match value <$> obs with
    | [] => Raise (ValueError "cannot set a frame with no defined index and a scalar")
    | _ :: _ => Ok (annotated p (value <$> obs))
    end.
Proof.
  destruct obs as [|o obs]; [reflexivity|].
  rewrite detect_read_csv by done. reflexivity.
Qed.

End frame.

(** C10.  Two series with the same values, whatever their timestamps, get
    the same columns from the smoothing cell and the same outcome from the
    detector up to the timestamps: the same exception, or frames with the
    same columns. *)
Theorem timestamps_not_read (p : Params) (obs1 obs2 : list Observation) :
  value <$> obs1 = value <$> obs2 →
  columns <$> smooth (read_csv obs1) = columns <$> smooth (read_csv obs2)
  ∧ columns <$> detect p (read_csv obs1) = columns <$> detect p (read_csv obs2).
Proof.
  intros Hv. split.
  - rewrite !smooth_read_csv. simpl. by rewrite Hv.
  - by rewrite !columns_detect, Hv.
Qed.

(** ** The notebook on concrete series *)

(** C6.  On the example series with index threshold 0.15, delta threshold
    0.1 and window 3 the harvest column holds the threshold at row 6 only
    and the germination column at row 8 only; the smoothed values at rows
    6, 7 and 8 are 0.13, 0.13 and 0.14 and the deltas -2/75, 0 and 0.01. *)
Theorem example_labels :
  column "harvest_period" (detect (mkParams 0.15 0.1 3) (read_csv example))
    = Some [NaN; NaN; NaN; NaN; NaN; NaN; Some 0.15%Q; NaN; NaN]
  ∧ column "germination_period" (detect (mkParams 0.15 0.1 3) (read_csv example))
    = Some [NaN; NaN; NaN; NaN; NaN; NaN; NaN; NaN; Some 0.15%Q]
  ∧ (∃ s6 s7 s8 : Q,
       cell "rolled_mean" 6 (detect (mkParams 0.15 0.1 3) (read_csv example))
         = Some (Some s6) ∧ (s6 == 0.13)%Q
       ∧ cell "rolled_mean" 7 (detect (mkParams 0.15 0.1 3) (read_csv example))
         = Some (Some s7) ∧ (s7 == 0.13)%Q
       ∧ cell "rolled_mean" 8 (detect (mkParams 0.15 0.1 3) (read_csv example))
         = Some (Some s8) ∧ (s8 == 0.14)%Q)
  ∧ (∃ d6 d7 d8 : Q,
       cell "delta_mean" 6 (detect (mkParams 0.15 0.1 3) (read_csv example))
         = Some (Some d6) ∧ (d6 == - (2 # 75))%Q
       ∧ cell "delta_mean" 7 (detect (mkParams 0.15 0.1 3) (read_csv example))
         = Some (Some d7) ∧ (d7 == 0)%Q
       ∧ cell "delta_mean" 8 (detect (mkParams 0.15 0.1 3) (read_csv example))
         = Some (Some d8) ∧ (d8 == 0.01)%Q).
Proof.
  split; [vm_compute; reflexivity|]. split; [vm_compute; reflexivity|]. split.
  - do 3 eexists. repeat split; try (vm_compute; reflexivity).
  - do 3 eexists. repeat split; try (vm_compute; reflexivity).
Qed.

(** C3, on the notebook as it is.  The parameter [rolling_window] is never
    read: the outcome is the same for every value of it.  Under the
    parameter cell of the notebook, where it is 14, the smoothed column of a
    series of three observations has a value at row 2, the mean of the
    three; and with [rolling_window] set to 1 the smoothed column is still
    NaN at rows 0 and 1. *)
Theorem rolling_window_is_not_read :
  (∀ (thr dthr : Q) (w w' : nat) (df : DataFrame),
     detect (mkParams thr dthr w) df = detect (mkParams thr dthr w') df)
  ∧ rolling_window defaults = 14
  ∧ length three = 3
  ∧ (∃ s : Q, cell "rolled_mean" 2 (detect defaults (read_csv three)) = Some (Some s)
              ∧ (s == 0.3)%Q)
  ∧ cell "rolled_mean" 0 (detect (mkParams 0.15 0.1 1) (read_csv three)) = Some NaN
  ∧ cell "rolled_mean" 1 (detect (mkParams 0.15 0.1 1) (read_csv three)) = Some NaN.
Proof.
  split; [reflexivity|]. split; [reflexivity|]. split; [reflexivity|]. split.
  - eexists. split; vm_compute; reflexivity.
  - split; vm_compute; reflexivity.
Qed.

(** C7, on the notebook as it is.  Under the parameter cell of the notebook
    the window parameter is 14; on a series of five falling observations,
    shorter than that, the detector labels rows 3 and 4 as harvest. *)
Theorem short_series_is_labelled :
  length falling < rolling_window defaults
  ∧ column "harvest_period" (detect defaults (read_csv falling))
    = Some [NaN; NaN; NaN; Some 0.15%Q; Some 0.15%Q]
  ∧ labelled "harvest_period" 3 (detect defaults (read_csv falling))
  ∧ labelled "harvest_period" 4 (detect defaults (read_csv falling)).
Proof.
  split; [vm_compute; lia|]. split; [vm_compute; reflexivity|].
  split; eexists; vm_compute; reflexivity.
Qed.

(** A series shorter than the window of the rolling mean, which is 3, gets
    no label. *)
Lemma shorter_than_window_unlabelled (p : Params) (obs : list Observation) (c : string) (i : nat) :
  length obs < window →
  c = "harvest_period"%string ∨ c = "germination_period"%string →
  ¬ labelled c i (detect p (read_csv obs)).
Proof.
  intros Hlen Hc Hl.
  apply labelled_inv in Hl as (_ & v & [Hv | Hv]); [| |exact Hc].
  - apply harvest_Some_inv in Hv as (s & d & (Hi & Hw & _)%rolled_Some_iff & _).
    rewrite length_fmap in Hi. lia.
  - apply germination_Some_inv in Hv as (s & d & (Hi & Hw & _)%rolled_Some_iff & _).
    rewrite length_fmap in Hi. lia.
Qed.

(** C4 fails.  A series whose timestamps are out of order and repeat is not
    well formed in the words of the specification, yet the detector raises
    nothing on it and returns a frame with a harvest label at row 3. *)
Lemma unordered_series_is_labelled :
  spec_well_formed shuffled = false
  ∧ (∀ e, detect defaults (read_csv shuffled) ≠ Raise e)
  ∧ (∃ df, detect defaults (read_csv shuffled) = Ok df
           ∧ timestamps df = [3; 1; 2; 2]%Z
           ∧ columns df !! "harvest_period"
             = Some [NaN; NaN; NaN; Some 0.15%Q]).
Proof.
  split; [reflexivity|]. split.
  - intros e. rewrite detect_read_csv by done. discriminate.
  - eexists. split; [by apply detect_read_csv|]. split; vm_compute; reflexivity.
Qed.

(** ** The theorems at concrete series *)

Lemma harvest_label_iff_witness :
  labelled "harvest_period" 6 (detect defaults (read_csv example)).
Proof.
  edestruct (harvest_label_iff defaults example 6) as ([_ Hl] & _).
  - vm_compute. reflexivity.
  - vm_compute. reflexivity.
  - apply Hl. split; [|split].
    + apply Qlt_bool_iff. vm_compute. reflexivity.
    + apply Qle_bool_iff. vm_compute. reflexivity.
    + apply Qlt_bool_iff. vm_compute. reflexivity.
Defined.

Lemma germination_label_iff_witness :
  cell "germination_period" 3 (detect defaults (read_csv steep)) = Some NaN
  ∧ cell "harvest_period" 3 (detect defaults (read_csv steep)) = Some (Some 0.15%Q).
Proof.
  edestruct (germination_label_iff defaults steep 3) as (_ & Hg & Hh).
  - vm_compute. reflexivity.
  - vm_compute. reflexivity.
  - split.
    + apply Hg. vm_compute. reflexivity.
    + apply Hh; [vm_compute; reflexivity | apply Qlt_bool_iff | apply Qlt_bool_iff];
        vm_compute; reflexivity.
Defined.

Lemma timestamps_not_read_witness :
  columns <$> detect defaults (read_csv shuffled)
  = columns <$> detect defaults (read_csv (daily [0.3; 0.2; 0.1; 0.05]%Q)).
Proof.
  apply (timestamps_not_read defaults shuffled (daily [0.3; 0.2; 0.1; 0.05]%Q)).
  vm_compute. reflexivity.
Defined.

(** * More of the notebook: any frame, gaps, repeated runs *)

(** ** When the cells return *)

Section outcomes.
Implicit Types (p : Params) (df : DataFrame) (c : string).

Lemma smooth_Some df xs :
  columns df !! "mean" = Some xs →
  smooth df =
    Ok (setitem (setitem df "rolled_mean" (rolling_mean window xs))
          "delta_mean" (diff (rolling_mean window xs))).
Proof.
  intros Hm. unfold smooth.
  rewrite (getitem_Some _ "mean" xs Hm), bind_Ok.
  rewrite (getitem_Some _ "rolled_mean" (rolling_mean window xs)), bind_Ok
    by apply lookup_insert_eq.
  reflexivity.
Qed.

Lemma smooth_None df :
  columns df !! "mean" = None → smooth df = Raise (KeyError "mean").
Proof. intros Hm. unfold smooth, getitem. by rewrite Hm. Qed.

Lemma loc_setitem_Ok df mask c v :
  is_Some (columns df !! c) ∨ timestamps df ≠ [] →
  loc_setitem df mask c v = Ok (setitem df c (assign mask v (prior df c))).
Proof.
  intros H. unfold loc_setitem, prior.
  destruct (columns df !! c) as [old|] eqn:Hc; [reflexivity|]. simpl.
  destruct H as [[? [=]] | Hts].
  case_decide as Hz; [|reflexivity].
  unfold nrows in Hz. destruct (timestamps df); [done | discriminate].
Qed.

Lemma loc_setitem_Raise df mask c v :
  columns df !! c = None → timestamps df = [] →
  loc_setitem df mask c v =
    Raise (ValueError "cannot set a frame with no defined index and a scalar").
Proof. apply loc_setitem_fresh_nil. Qed.

Lemma prior_setitem_ne df c c' xs :
  c ≠ c' → prior (setitem df c xs) c' = prior df c'.
Proof. intros Hne. unfold prior, setitem, nrows; simpl. by rewrite lookup_insert_ne. Qed.

Lemma label_Some p df rm dm :
  columns df !! "rolled_mean" = Some rm → columns df !! "delta_mean" = Some dm →
  is_Some (columns df !! "harvest_period") ∨ timestamps df ≠ [] →
  is_Some (columns df !! "germination_period") ∨ timestamps df ≠ [] →
  label p df = Ok (label_result p df rm dm).
Proof.
  intros Hrm Hdm Hh Hg. unfold label.
  rewrite (getitem_Some _ "rolled_mean" rm Hrm), bind_Ok.
  rewrite (getitem_Some _ "delta_mean" dm Hdm), bind_Ok.
  rewrite loc_setitem_Ok, bind_Ok by exact Hh.
  rewrite (getitem_Some _ "rolled_mean" rm), bind_Ok
    by (unfold setitem; simpl; by rewrite lookup_insert_ne).
  rewrite (getitem_Some _ "delta_mean" dm), bind_Ok
    by (unfold setitem; simpl; by rewrite lookup_insert_ne).
  rewrite loc_setitem_Ok.
  - unfold label_result. by rewrite prior_setitem_ne.
  - unfold setitem; simpl. rewrite lookup_insert_ne by done. exact Hg.
Qed.

Lemma label_Raise_empty p df rm dm :
  columns df !! "rolled_mean" = Some rm → columns df !! "delta_mean" = Some dm →
  timestamps df = [] →
  columns df !! "harvest_period" = None ∨ columns df !! "germination_period" = None →
  label p df =
    Raise (ValueError "cannot set a frame with no defined index and a scalar").
Proof.
  intros Hrm Hdm Hts Hmiss. unfold label.
  rewrite (getitem_Some _ "rolled_mean" rm Hrm), bind_Ok.
  rewrite (getitem_Some _ "delta_mean" dm Hdm), bind_Ok.
  destruct (columns df !! "harvest_period") as [h|] eqn:Hh.
  - destruct Hmiss as [? | Hg]; [done|].
    rewrite loc_setitem_Ok, bind_Ok by (rewrite Hh; eauto).
    rewrite (getitem_Some _ "rolled_mean" rm), bind_Ok
      by (unfold setitem; simpl; by rewrite lookup_insert_ne).
    rewrite (getitem_Some _ "delta_mean" dm), bind_Ok
      by (unfold setitem; simpl; by rewrite lookup_insert_ne).
    apply loc_setitem_Raise; unfold setitem; simpl; [|done].
    by rewrite lookup_insert_ne.
  - by rewrite loc_setitem_Raise.
Qed.

End outcomes.

(** X1.  On a frame of float columns the smoothing cell raises exactly when
    the frame has no column [mean], and then the KeyError for that name;
    otherwise it returns a frame with the same timestamps in which only
    [rolled_mean] and [delta_mean] may differ from the input, both as long
    as [mean]. *)
Theorem smooth_outcome (df : DataFrame) :
  match columns df !! "mean" with
  | None => smooth df = Raise (KeyError "mean")
  | Some xs =>
      ∃ df1 rm dm,
        smooth df = Ok df1
        ∧ timestamps df1 = timestamps df
        ∧ columns df1 !! "rolled_mean" = Some rm ∧ length rm = length xs
        ∧ columns df1 !! "delta_mean" = Some dm ∧ length dm = length xs
        ∧ ∀ c, c ≠ "rolled_mean"%string → c ≠ "delta_mean"%string →
               columns df1 !! c = columns df !! c
  end.
Proof.
  destruct (columns df !! "mean") as [xs|] eqn:Hm; [|by apply smooth_None].
  eexists _, (rolling_mean window xs), (diff (rolling_mean window xs)).
  split; [by apply smooth_Some|]. unfold setitem; simpl.
  split; [done|]. split; [by rewrite lookup_insert_ne, lookup_insert_eq|].
  split; [apply length_rolling_mean|]. split; [by rewrite lookup_insert_eq|].
  split; [by rewrite length_diff, length_rolling_mean|].
  intros c H1 H2. by rewrite !lookup_insert_ne.
Qed.

(** X3.  The two cells in sequence: on any frame of float columns the
    detector raises the KeyError for [mean] when that column is missing and
    otherwise never a KeyError, since the smoothing cell supplies the
    columns that the labelling cell reads; it raises the ValueError exactly
    on a frame without rows that lacks a label column, and returns in every
    other case. *)
Theorem detect_outcome (p : Params) (df : DataFrame) :
  match columns df !! "mean" with
  | None => detect p df = Raise (KeyError "mean")
  | Some xs =>
      match timestamps df, columns df !! "harvest_period",
            columns df !! "germination_period" with
      | [], None, _ | [], _, None =>
          detect p df =
            Raise (ValueError "cannot set a frame with no defined index and a scalar")
      | _, _, _ => ∃ df', detect p df = Ok df' ∧ timestamps df' = timestamps df
      end
  end.
Proof.
  unfold detect.
  destruct (columns df !! "mean") as [xs|] eqn:Hm; [|by rewrite smooth_None].
  rewrite (smooth_Some df xs Hm), bind_Ok.
  set (df1 := setitem (setitem df "rolled_mean" (rolling_mean window xs))
                "delta_mean" (diff (rolling_mean window xs))).
  assert (columns df1 !! "rolled_mean" = Some (rolling_mean window xs)) as Hrm.
  { unfold df1, setitem; simpl. by rewrite lookup_insert_ne, lookup_insert_eq. }
  assert (columns df1 !! "delta_mean" = Some (diff (rolling_mean window xs))) as Hdm.
  { unfold df1, setitem; simpl. by rewrite lookup_insert_eq. }
  assert (columns df1 !! "harvest_period" = columns df !! "harvest_period") as Hh.
  { unfold df1, setitem; simpl. by rewrite !lookup_insert_ne. }
  assert (columns df1 !! "germination_period" = columns df !! "germination_period") as Hg.
  { unfold df1, setitem; simpl. by rewrite !lookup_insert_ne. }
  assert (timestamps df1 = timestamps df) as Hts by done.
  destruct (timestamps df) as [|t ts] eqn:Hts',
           (columns df !! "harvest_period") as [h|] eqn:Hh',
           (columns df !! "germination_period") as [g|] eqn:Hg';
    try (apply (label_Raise_empty p df1 _ _ Hrm Hdm Hts); rewrite Hh, Hg; by auto);
    (eexists; split;
      [ apply (label_Some p df1 _ _ Hrm Hdm); rewrite ?Hh, ?Hg, ?Hts; by eauto
      | done ]).
Qed.

(** ** Alignment, repeated runs, labels that stay *)

Section reruns.
Implicit Types (p : Params) (df : DataFrame) (c : string).

Lemma getitem_Ok_inv df c xs : getitem df c = Ok xs → columns df !! c = Some xs.
Proof. unfold getitem. destruct (columns df !! c); [by intros [= ->] | by intros [=]]. Qed.

Lemma loc_setitem_Ok_inv df mask c v df' :
  loc_setitem df mask c v = Ok df' →
  df' = setitem df c (assign mask v (prior df c)).
Proof.
  unfold loc_setitem, prior. destruct (columns df !! c); simpl.
  - by intros [= <-].
  - case_decide; by intros [= <-].
Qed.

Lemma label_Ok_inv p df df' :
  label p df = Ok df' →
  ∃ rm dm, columns df !! "rolled_mean" = Some rm
           ∧ columns df !! "delta_mean" = Some dm
           ∧ df' = label_result p df rm dm.
Proof.
  unfold label. intros H.
  apply bind_Ok_inv in H as (rm & Hrm%getitem_Ok_inv & H).
  apply bind_Ok_inv in H as (dm & Hdm%getitem_Ok_inv & H).
  apply bind_Ok_inv in H as (df1 & ->%loc_setitem_Ok_inv & H).
  apply bind_Ok_inv in H as (rm' & Hrm'%getitem_Ok_inv & H).
  apply bind_Ok_inv in H as (dm' & Hdm'%getitem_Ok_inv & H).
  apply loc_setitem_Ok_inv in H as ->.
  unfold setitem in Hrm', Hdm'; simpl in Hrm', Hdm'.
  rewrite lookup_insert_ne in Hrm', Hdm' by done.
  exists rm, dm. split; [done|]. split; [done|].
  unfold label_result. rewrite prior_setitem_ne by done. congruence.
Qed.

Lemma smooth_Ok_inv df df1 :
  smooth df = Ok df1 →
  ∃ xs, columns df !! "mean" = Some xs
        ∧ df1 = setitem (setitem df "rolled_mean" (rolling_mean window xs))
                  "delta_mean" (diff (rolling_mean window xs)).
Proof.
  intros H. destruct (columns df !! "mean") as [xs|] eqn:Hm.
  - exists xs. split; [done|]. rewrite (smooth_Some df xs Hm) in H. congruence.
  - rewrite (smooth_None df Hm) in H. discriminate.
Qed.

Lemma aligned_setitem df c xs :
  aligned df → length xs = nrows df → aligned (setitem df c xs).
Proof.
  intros Hal Hlen c' xs'. unfold setitem, nrows; simpl.
  rewrite lookup_insert. case_decide; [by intros [= <-]|]. apply Hal.
Qed.

Lemma length_prior df c : aligned df → length (prior df c) = nrows df.
Proof.
  intros Hal. unfold prior. destruct (columns df !! c) as [xs|] eqn:Hc; simpl.
  - by apply (Hal c).
  - apply length_replicate.
Qed.

Lemma aligned_smooth df df1 : aligned df → smooth df = Ok df1 → aligned df1.
Proof.
  intros Hal (xs & Hm & ->)%smooth_Ok_inv.
  pose proof (Hal _ _ Hm) as Hlen.
  apply aligned_setitem; [apply aligned_setitem; [done|]|].
  - by rewrite length_rolling_mean.
  - by rewrite length_diff, length_rolling_mean.
Qed.

Lemma aligned_label p df df' : aligned df → label p df = Ok df' → aligned df'.
Proof.
  intros Hal (rm & dm & Hrm & Hdm & ->)%label_Ok_inv.
  pose proof (Hal _ _ Hrm) as Hlr. pose proof (Hal _ _ Hdm) as Hld.
  unfold label_result.
  apply aligned_setitem; [apply aligned_setitem; [done|]|].
  - rewrite length_assign; rewrite length_prior by done; [done|].
    rewrite length_harvest_mask; congruence.
  - rewrite length_assign; rewrite length_prior by done; [done|].
    rewrite length_germination_mask; congruence.
Qed.

Lemma assign_idemp (mask : list bool) (v : Q) (old : list (option Q)) :
  assign mask v (assign mask v old) = assign mask v old.
Proof.
  unfold assign. revert old.
  induction mask as [|m mask IH]; intros [|o old]; simpl; try reflexivity.
  rewrite IH. by destruct m.
Qed.

Lemma setitem_id df c xs : columns df !! c = Some xs → setitem df c xs = df.
Proof.
  intros Hc. unfold setitem. rewrite insert_id by exact Hc. by destruct df.
Qed.

End reruns.

(** X4.  The cells keep frames aligned: when every column of the input has
    as many cells as the frame has rows, so has every column of what the
    smoothing cell, the labelling cell and the detector return. *)
Theorem cells_keep_alignment (p : Params) (df : DataFrame) :
  aligned df →
  (∀ df', smooth df = Ok df' → aligned df' ∧ nrows df' = nrows df)
  ∧ (∀ df', label p df = Ok df' → aligned df' ∧ nrows df' = nrows df)
  ∧ (∀ df', detect p df = Ok df' → aligned df' ∧ nrows df' = nrows df).
Proof.
  intros Hal. split; [|split].
  - intros df' H. split; [by eapply aligned_smooth|].
    by apply smooth_Ok_inv in H as (xs & _ & ->).
  - intros df' H. split; [by eapply aligned_label|].
    by apply label_Ok_inv in H as (rm & dm & _ & _ & ->).
  - intros df' H. unfold detect in H. apply bind_Ok_inv in H as (df1 & H1 & H2).
    split; [eapply aligned_label, H2; by eapply aligned_smooth|].
    apply smooth_Ok_inv in H1 as (xs & _ & ->).
    by apply label_Ok_inv in H2 as (rm & dm & _ & _ & ->).
Qed.

Lemma smooth_again (df df1 : DataFrame) :
  smooth df = Ok df1 → smooth df1 = Ok df1.
Proof.
  intros (xs & Hm & ->)%smooth_Ok_inv.
  set (R := rolling_mean window xs). set (D := diff R).
  rewrite (smooth_Some _ xs)
    by (unfold setitem; simpl; by rewrite !lookup_insert_ne).
  fold R D. f_equal.
  rewrite (setitem_id _ "rolled_mean" R)
    by (unfold setitem; simpl; by rewrite lookup_insert_ne, lookup_insert_eq).
  apply setitem_id. unfold setitem; simpl. by rewrite lookup_insert_eq.
Qed.

(** X5.  Running a cell again changes nothing: the smoothing cell, the
    labelling cell under the same parameters, and the detector as a whole
    each return, on a frame they returned, that same frame. *)
Theorem rerun_changes_nothing (p : Params) (df df1 : DataFrame) :
  (smooth df = Ok df1 → smooth df1 = Ok df1)
  ∧ (label p df = Ok df1 → label p df1 = Ok df1)
  ∧ (detect p df = Ok df1 → detect p df1 = Ok df1).
Proof.
  split; [apply smooth_again|].
  assert (∀ d d1, label p d = Ok d1 → label p d1 = Ok d1) as Hlabel.
  { intros d d1 (rm & dm & Hrm & Hdm & ->)%label_Ok_inv.
    set (H := assign (harvest_mask p rm dm) (ndvi_threshold p) (prior d "harvest_period")).
    set (G := assign (germination_mask p rm dm) (ndvi_threshold p)
                (prior d "germination_period")).
    assert (columns (label_result p d rm dm) !! "harvest_period" = Some H) as HH.
    { unfold label_result, setitem; simpl.
      by rewrite lookup_insert_ne, lookup_insert_eq. }
    assert (columns (label_result p d rm dm) !! "germination_period" = Some G) as HG.
    { unfold label_result, setitem; simpl. by rewrite lookup_insert_eq. }
    rewrite (label_Some p _ rm dm);
      [| unfold label_result, setitem; simpl; by rewrite !lookup_insert_ne
       | unfold label_result, setitem; simpl; by rewrite !lookup_insert_ne
       | left; rewrite HH; eauto | left; rewrite HG; eauto ].
    f_equal. unfold label_result at 1.
    assert (prior (label_result p d rm dm) "harvest_period" = H) as ->.
    { unfold prior. by rewrite HH. }
    assert (prior (label_result p d rm dm) "germination_period" = G) as ->.
    { unfold prior. by rewrite HG. }
    unfold H at 1, G at 1. rewrite !assign_idemp. fold H G.
    rewrite (setitem_id _ "harvest_period" H HH). by apply setitem_id. }
  split; [apply Hlabel|].
  intros Hd. unfold detect in *. apply bind_Ok_inv in Hd as (d1 & Hs & Hl).
  assert (smooth df1 = Ok df1) as ->.
  { pose proof (smooth_again _ _ Hs) as Hs1.
    apply smooth_Ok_inv in Hs1 as (xs & Hm & Heq).
    apply label_Ok_inv in Hl as (rm & dm & Hrm & Hdm & ->).
    rewrite (smooth_Some _ xs)
      by (unfold label_result, setitem; simpl; by rewrite !lookup_insert_ne).
    f_equal.
    rewrite (setitem_id _ "rolled_mean" (rolling_mean window xs)).
    - apply setitem_id. unfold label_result, setitem; simpl.
      rewrite !lookup_insert_ne by done. rewrite Heq in Hdm.
      unfold setitem in Hdm; simpl in Hdm.
      rewrite lookup_insert_eq in Hdm. rewrite Heq at 1.
      unfold setitem; simpl. by rewrite lookup_insert_eq.
    - unfold label_result, setitem; simpl.
      rewrite !lookup_insert_ne by done. rewrite Heq at 1.
      unfold setitem; simpl. by rewrite lookup_insert_ne, lookup_insert_eq. }
  rewrite bind_Ok. by eapply Hlabel.
Qed.

(** X6.  The labelling cell never clears a label: on an aligned frame that
    already has a label column, a row that holds a value there holds, after
    the cell, that value or the threshold of this run, whatever the rules
    say under the parameters of this run. *)
Theorem labels_are_never_cleared (p : Params) (df df' : DataFrame)
    (c : string) (xs : list (option Q)) (i : nat) (v : Q) :
  aligned df → label p df = Ok df' →
  c = "harvest_period"%string ∨ c = "germination_period"%string →
  columns df !! c = Some xs → xs !! i = Some (Some v) →
  cell c i (Ok df') = Some (Some v) ∨ cell c i (Ok df') = Some (Some (ndvi_threshold p)).
Proof.
  intros Hal (rm & dm & Hrm & Hdm & ->)%label_Ok_inv Hc Hxs Hv.
  pose proof (Hal _ _ Hrm) as Hlr. pose proof (Hal _ _ Hdm) as Hld.
  pose proof (Hal _ _ Hxs) as Hlx. pose proof (lookup_lt_Some _ _ _ Hv) as Hi.
  assert (prior df c = xs) as Hp by (unfold prior; by rewrite Hxs).
  unfold cell, label_result, setitem; simpl. destruct Hc as [-> | ->].
  - rewrite lookup_insert_ne, lookup_insert_eq by done; simpl. rewrite Hp.
    destruct (lookup_lt_is_Some_2 (harvest_mask p rm dm) i) as [m Hm].
    { rewrite length_harvest_mask; congruence. }
    unfold assign. rewrite lookup_zip_with, Hm, Hv; simpl.
    destruct m; [by right | by left].
  - rewrite lookup_insert_eq; simpl. rewrite Hp.
    destruct (lookup_lt_is_Some_2 (germination_mask p rm dm) i) as [m Hm].
    { rewrite length_germination_mask; congruence. }
    unfold assign. rewrite lookup_zip_with, Hm, Hv; simpl.
    destruct m; [by right | by left].
Qed.

(** ** Gaps in the observations *)

Section gaps.
Implicit Types (xs : list (option Q)) (i j : nat).

Lemma length_valid xs : length (valid xs) ≤ length xs.
Proof.
  unfold valid. induction xs as [|[x|] xs IH]; csimpl; lia.
Qed.

Lemma window_at_full xs j x y z :
  xs !! j = Some x → xs !! S j = Some y → xs !! S (S j) = Some z →
  window_at window (S (S j)) xs = [x; y; z].
Proof.
  intros Hx Hy Hz. unfold window_at, window.
  replace (S (S (S j)) - 3) with j by lia.
  apply list_eq. intros k. rewrite lookup_drop, lookup_take.
  destruct k as [|[|[|k]]]; simpl.
  - rewrite decide_True by lia. by rewrite Nat.add_0_r.
  - rewrite decide_True by lia. by replace (j + 1) with (S j) by lia.
  - rewrite decide_True by lia. by replace (j + 2) with (S (S j)) by lia.
  - rewrite decide_False by lia. done.
Qed.

Lemma mean_at_early xs i : i < window - 1 → mean_at window i xs = NaN.
Proof.
  intros Hi. unfold mean_at. rewrite decide_False; [done|].
  pose proof (length_valid (window_at window i xs)) as Hle.
  unfold window_at in Hle at 2. rewrite length_drop, length_take in Hle.
  unfold window in *. lia.
Qed.

(** With gaps, the rolling mean of window 3 has a value at a row exactly
    when the row and the two rows before it all hold values. *)
Lemma rolling_mean_Some_iff xs i s :
  rolling_mean window xs !! i = Some (Some s) ↔
  ∃ j a b c, i = S (S j) ∧ xs !! j = Some (Some a) ∧ xs !! S j = Some (Some b)
             ∧ xs !! S (S j) = Some (Some c) ∧ s = Qmean [a; b; c].
Proof.
  split.
  - intros Hs. pose proof (lookup_lt_Some _ _ _ Hs) as Hi.
    rewrite length_rolling_mean in Hi.
    rewrite lookup_rolling_mean in Hs by exact Hi.
    destruct i as [|[|j]];
      [rewrite mean_at_early in Hs by (unfold window; lia); discriminate ..|].
    destruct (lookup_lt_is_Some_2 xs j) as [x Hx]; [lia|].
    destruct (lookup_lt_is_Some_2 xs (S j)) as [y Hy]; [lia|].
    destruct (lookup_lt_is_Some_2 xs (S (S j))) as [z Hz]; [lia|].
    unfold mean_at in Hs. rewrite (window_at_full xs j x y z Hx Hy Hz) in Hs.
    destruct x as [a|], y as [b|], z as [c|]; simpl in Hs; try discriminate.
    exists j, a, b, c. by simplify_eq.
  - intros (j & a & b & c & -> & Ha & Hb & Hc & ->).
    rewrite lookup_rolling_mean by (by apply lookup_lt_Some in Hc).
    unfold mean_at. by rewrite (window_at_full xs j _ _ _ Ha Hb Hc).
Qed.

Lemma diff_Some_iff xs i d :
  diff xs !! i = Some (Some d) ↔
  ∃ j s s', i = S j ∧ xs !! S j = Some (Some s) ∧ xs !! j = Some (Some s')
            ∧ d = (s - s')%Q.
Proof.
  split.
  - intros Hd. pose proof (lookup_lt_Some _ _ _ Hd) as Hi.
    rewrite length_diff in Hi. destruct i as [|j].
    { rewrite lookup_diff_0 in Hd; [discriminate|]. intros ->. simpl in Hi. lia. }
    destruct (lookup_lt_is_Some_2 xs (S j) Hi) as [r Hr].
    destruct (lookup_diff_S xs j r Hr) as (r' & Hr' & Hsub).
    rewrite Hsub in Hd. destruct r as [s|], r' as [s'|]; simplify_eq/=.
    by exists j, s, s'.
  - intros (j & s & s' & -> & Hs & Hs' & ->).
    destruct (lookup_diff_S xs j _ Hs) as (r' & Hr' & Hsub). by simplify_eq.
Qed.

Lemma cell_smooth_rolled df xs i :
  columns df !! "mean" = Some xs →
  cell "rolled_mean" i (smooth df) = rolling_mean window xs !! i.
Proof.
  intros Hm. rewrite (smooth_Some df xs Hm). unfold cell, setitem; simpl.
  by rewrite lookup_insert_ne, lookup_insert_eq.
Qed.

Lemma cell_smooth_delta df xs i :
  columns df !! "mean" = Some xs →
  cell "delta_mean" i (smooth df) = diff (rolling_mean window xs) !! i.
Proof.
  intros Hm. rewrite (smooth_Some df xs Hm). unfold cell, setitem; simpl.
  by rewrite lookup_insert_eq.
Qed.

End gaps.

(** X7.  With gaps in the observations: on a frame of float columns with a
    column [mean], a smoothed value exists at a row only when the row and
    the two rows before it all hold observations, and a delta only when the
    row and the three rows before it do.  So a missing observation blanks
    the smoothed value of its row and of the next two, and the delta of one
    row more. *)
Theorem smoothing_with_gaps (df : DataFrame) (xs : list (option Q)) (i : nat) :
  columns df !! "mean" = Some xs →
  (∀ s, cell "rolled_mean" i (smooth df) = Some (Some s) →
        ∃ j a b c, i = S (S j) ∧ xs !! j = Some (Some a) ∧ xs !! S j = Some (Some b)
                   ∧ xs !! i = Some (Some c))
  ∧ (∀ d, cell "delta_mean" i (smooth df) = Some (Some d) →
        ∃ j a b c e, i = S (S (S j)) ∧ xs !! j = Some (Some a)
                     ∧ xs !! S j = Some (Some b) ∧ xs !! S (S j) = Some (Some c)
                     ∧ xs !! i = Some (Some e))
  ∧ (∀ k, xs !! k = Some NaN → k ≤ i → i ≤ k + 2 →
          ∀ s, cell "rolled_mean" i (smooth df) ≠ Some (Some s))
  ∧ (∀ k, xs !! k = Some NaN → k ≤ i → i ≤ k + 3 →
          ∀ d, cell "delta_mean" i (smooth df) ≠ Some (Some d)).
Proof.
  intros Hm.
  assert (∀ s, cell "rolled_mean" i (smooth df) = Some (Some s) →
        ∃ j a b c, i = S (S j) ∧ xs !! j = Some (Some a) ∧ xs !! S j = Some (Some b)
                   ∧ xs !! i = Some (Some c)) as Hroll.
  { intros s. rewrite (cell_smooth_rolled df xs i Hm), rolling_mean_Some_iff.
    intros (j & a & b & c & -> & Ha & Hb & Hc & _). by exists j, a, b, c. }
  assert (∀ d, cell "delta_mean" i (smooth df) = Some (Some d) →
        ∃ j a b c e, i = S (S (S j)) ∧ xs !! j = Some (Some a)
                     ∧ xs !! S j = Some (Some b) ∧ xs !! S (S j) = Some (Some c)
                     ∧ xs !! i = Some (Some e)) as Hdelta.
  { intros d. rewrite (cell_smooth_delta df xs i Hm), diff_Some_iff.
    intros (j & s & s' & -> & Hs & Hs' & ->).
    apply rolling_mean_Some_iff in Hs as (j1 & b & c & e & Hj1 & Hb & Hc & He & ->).
    apply rolling_mean_Some_iff in Hs' as (j2 & a & b' & c' & -> & Ha & Hb' & Hc' & ->).
    assert (j1 = S j2) as -> by lia. simplify_eq.
    by exists j2, a, b, c, e. }
  split; [exact Hroll|]. split; [exact Hdelta|]. split.
  - intros k Hk Hle Hge s (j & a & b & c & -> & Ha & Hb & Hc)%Hroll.
    unfold NaN in Hk.
    assert (k = j ∨ k = S j ∨ k = S (S j)) as [-> | [-> | ->]] by lia; congruence.
  - intros k Hk Hle Hge d (j & a & b & c & e & -> & Ha & Hb & Hc & He)%Hdelta.
    assert (k = j ∨ k = S j ∨ k = S (S j) ∨ k = S (S (S j)))
      as [-> | [-> | [-> | ->]]] by lia; unfold NaN in Hk; congruence.
Qed.

(** ** Labelled rows in terms of the smoothed value and the delta *)

Section observations.
Implicit Types (p : Params) (obs : list Observation) (i j : nat).

Lemma labelled_harvest_iff p obs i :
  labelled "harvest_period" i (detect p (read_csv obs)) ↔
  ∃ s d, rolled (value <$> obs) !! i = Some (Some s)
         ∧ delta (value <$> obs) !! i = Some (Some d)
         ∧ (s < ndvi_threshold p ∧ Qabs d <= delta_threshold p ∧ d < 0)%Q.
Proof.
  split.
  - intros [v Hv]. apply cell_detect_Some in Hv as (_ & xs & Hxs & Hx).
    rewrite annotated_lookup_harvest in Hxs. simplify_eq.
    apply harvest_Some_inv in Hx as (s & d & Hs & Hd & _ & Hrule).
    by exists s, d.
  - intros (s & d & Hs & Hd & Hrule).
    assert (obs ≠ []) as Hne.
    { intros ->. apply lookup_lt_Some in Hs. rewrite length_rolled in Hs.
      simpl in Hs. lia. }
    exists (ndvi_threshold p). rewrite cell_harvest by exact Hne.
    rewrite (lookup_harvest p _ i _ _ Hs Hd).
    apply (harvest_rule_true p s d) in Hrule. by rewrite Hrule.
Qed.

Lemma labelled_germination_iff p obs i :
  labelled "germination_period" i (detect p (read_csv obs)) ↔
  ∃ s d, rolled (value <$> obs) !! i = Some (Some s)
         ∧ delta (value <$> obs) !! i = Some (Some d)
         ∧ (s < ndvi_threshold p ∧ Qabs d < delta_threshold p ∧ 0 < d)%Q.
Proof.
  split.
  - intros [v Hv]. apply cell_detect_Some in Hv as (_ & xs & Hxs & Hx).
    rewrite annotated_lookup_germination in Hxs. simplify_eq.
    apply germination_Some_inv in Hx as (s & d & Hs & Hd & _ & Hrule).
    by exists s, d.
  - intros (s & d & Hs & Hd & Hrule).
    assert (obs ≠ []) as Hne.
    { intros ->. apply lookup_lt_Some in Hs. rewrite length_rolled in Hs.
      simpl in Hs. lia. }
    exists (ndvi_threshold p). rewrite cell_germination by exact Hne.
    rewrite (lookup_germination p _ i _ _ Hs Hd).
    apply (germination_rule_true p s d) in Hrule. by rewrite Hrule.
Qed.

End observations.

(** X10.  No row carries both labels, and no label lies on the first three
    rows: a labelled row has index at least 3, so a series needs four
    observations before it can be labelled at all. *)
Theorem labels_exclusive_and_late (p : Params) (obs : list Observation) (i : nat) :
  ¬ (labelled "harvest_period" i (detect p (read_csv obs))
     ∧ labelled "germination_period" i (detect p (read_csv obs)))
  ∧ (labelled "harvest_period" i (detect p (read_csv obs))
     ∨ labelled "germination_period" i (detect p (read_csv obs)) →
     3 ≤ i ∧ i < length obs ∧ 4 ≤ length obs).
Proof.
  split.
  - intros [(s & d & _ & Hd & _ & _ & Hneg)%labelled_harvest_iff
            (s' & d' & _ & Hd' & _ & _ & Hpos)%labelled_germination_iff].
    simplify_eq. apply (Qlt_irrefl 0). by eapply Qlt_trans.
  - assert (∀ d, delta (value <$> obs) !! i = Some (Some d) →
              3 ≤ i ∧ i < length obs ∧ 4 ≤ length obs) as Hrows.
    { intros d Hd. pose proof (lookup_lt_Some _ _ _ Hd) as Hi.
      rewrite length_delta, length_fmap in Hi.
      apply delta_Some_iff in Hd as (j & s & s' & -> & _ & Hs' & _).
      apply rolled_Some_iff in Hs' as (_ & Hw & _). unfold window in Hw. lia. }
    intros [(s & d & _ & Hd & _)%labelled_harvest_iff
           | (s & d & _ & Hd & _)%labelled_germination_iff]; by eapply Hrows.
Qed.

(** X11.  Raising a threshold never removes a label: a row labelled under
    some parameters is labelled the same way under parameters whose index
    threshold and delta threshold are at least as large. *)
Theorem labels_grow_with_thresholds (p p' : Params) (obs : list Observation)
    (c : string) (i : nat) :
  (ndvi_threshold p <= ndvi_threshold p')%Q →
  (delta_threshold p <= delta_threshold p')%Q →
  c = "harvest_period"%string ∨ c = "germination_period"%string →
  labelled c i (detect p (read_csv obs)) →
  labelled c i (detect p' (read_csv obs)).
Proof.
  intros Hthr Hdthr [-> | ->].
  - rewrite !labelled_harvest_iff. intros (s & d & Hs & Hd & H1 & H2 & H3).
    exists s, d. repeat split; try done.
    + by eapply Qlt_le_trans.
    + by eapply Qle_trans.
  - rewrite !labelled_germination_iff. intros (s & d & Hs & Hd & H1 & H2 & H3).
    exists s, d. repeat split; try done.
    + by eapply Qlt_le_trans.
    + by eapply Qlt_le_trans.
Qed.

(** X12.  A delta threshold that is zero or negative switches the detector
    off: no row of any series is labelled. *)
Theorem nonpositive_delta_threshold_labels_nothing (p : Params)
    (obs : list Observation) (c : string) (i : nat) :
  (delta_threshold p <= 0)%Q →
  c = "harvest_period"%string ∨ c = "germination_period"%string →
  ¬ labelled c i (detect p (read_csv obs)).
Proof.
  intros Hdthr [-> | ->].
  - intros (s & d & _ & _ & _ & Habs & Hneg)%labelled_harvest_iff.
    rewrite Qabs_neg in Habs by (by apply Qlt_le_weak). lra.
  - intros (s & d & _ & _ & _ & Habs & Hpos)%labelled_germination_iff.
    rewrite Qabs_pos in Habs by (by apply Qlt_le_weak). lra.
Qed.

(** ** The plot cell *)

Section plot.
Implicit Types (p : Params) (df : DataFrame) (c : string).

Lemma select_Some df cs :
  Forall (λ c, is_Some (columns df !! c)) cs →
  select df cs = Some (filter (λ kv, kv.1 ∈ cs) (columns df)).
Proof. intros H. unfold select. by rewrite decide_True. Qed.

Lemma aligned_read_csv (obs : list Observation) : aligned (read_csv obs).
Proof.
  intros c xs. unfold read_csv, nrows; simpl.
  intros [_ <-]%lookup_singleton_Some. by rewrite !length_fmap.
Qed.

End plot.

(** X14.  The selection of the plot cell fails exactly when the frame lacks
    one of the three columns it names.  After the labelling cell has
    returned it never fails, also when no row was labelled, and it holds
    exactly the smoothed column and the two label columns of the frame. *)
Theorem plot_selection (p : Params) (df df' : DataFrame) :
  (plotted df = None ↔
     columns df !! "rolled_mean" = None ∨ columns df !! "harvest_period" = None
     ∨ columns df !! "germination_period" = None)
  ∧ (label p df = Ok df' →
     ∃ sel, plotted df' = Some sel
            ∧ is_Some (sel !! "rolled_mean") ∧ is_Some (sel !! "harvest_period")
            ∧ is_Some (sel !! "germination_period")
            ∧ ∀ c xs, sel !! c = Some xs ↔
                columns df' !! c = Some xs
                ∧ (c = "rolled_mean"%string ∨ c = "harvest_period"%string
                   ∨ c = "germination_period"%string)).
Proof.
  assert (∀ d : DataFrame,
    Forall (λ c, is_Some (columns d !! c))
      ["rolled_mean"; "harvest_period"; "germination_period"]%string
    ↔ is_Some (columns d !! "rolled_mean") ∧ is_Some (columns d !! "harvest_period")
      ∧ is_Some (columns d !! "germination_period")) as Hall.
  { intros d. rewrite !Forall_cons. pose proof (@Forall_nil string
      (λ c, is_Some (columns d !! c))). tauto. }
  assert (∀ (d : DataFrame) c xs,
    filter (λ kv : string * list (option Q),
              kv.1 ∈ ["rolled_mean"; "harvest_period"; "germination_period"]%string)
      (columns d) !! c = Some xs ↔
    columns d !! c = Some xs
    ∧ (c = "rolled_mean"%string ∨ c = "harvest_period"%string
       ∨ c = "germination_period"%string)) as Hsel.
  { intros d c xs. rewrite map_lookup_filter_Some. simpl.
    rewrite !elem_of_cons, elem_of_nil. tauto. }
  split.
  - unfold plotted, select. case_decide as Hd.
    + split; [discriminate|]. apply Hall in Hd as ([? H1] & [? H2] & [? H3]).
      intros [H | [H | H]]; congruence.
    + split; [|done]. intros _.
      rewrite Hall, <- !not_eq_None_Some in Hd.
      destruct (columns df !! "rolled_mean"); [|by left].
      destruct (columns df !! "harvest_period"); [|by right; left].
      destruct (columns df !! "germination_period"); [|by right; right].
      exfalso. apply Hd. done.
  - intros (rm & dm & Hrm & Hdm & ->)%label_Ok_inv.
    set (d := label_result p df rm dm).
    assert (columns d !! "rolled_mean" = Some rm) as H1.
    { unfold d, label_result, setitem; simpl. by rewrite !lookup_insert_ne. }
    assert (is_Some (columns d !! "harvest_period")) as [h H2].
    { unfold d, label_result, setitem; simpl.
      rewrite lookup_insert_ne, lookup_insert_eq by done. eauto. }
    assert (is_Some (columns d !! "germination_period")) as [g H3].
    { unfold d, label_result, setitem; simpl. rewrite lookup_insert_eq. eauto. }
    eexists. split.
    { unfold plotted. apply select_Some, Hall. rewrite H1, H2, H3. eauto. }
    split; [exists rm; apply Hsel; eauto|].
    split; [exists h; apply Hsel; eauto|].
    split; [exists g; apply Hsel; eauto|].
    intros c xs. apply Hsel.
Qed.

(** ** The theorems of this part at concrete frames *)

Lemma cells_keep_alignment_witness :
  ∃ df', detect defaults (read_csv example) = Ok df' ∧ aligned df' ∧ nrows df' = 9.
Proof.
  eexists. split; [by apply detect_read_csv|].
  apply (cells_keep_alignment defaults (read_csv example)).
  - apply aligned_read_csv.
  - by apply detect_read_csv.
Defined.

Lemma labels_are_never_cleared_witness :
  ∃ df df',
    detect defaults (read_csv falling) = Ok df ∧ label strict df = Ok df'
    ∧ (cell "harvest_period" 3 (Ok df') = Some (Some 0.15%Q)
       ∨ cell "harvest_period" 3 (Ok df') = Some (Some 0.01%Q)).
Proof.
  set (df0 := mkDataFrame (timestamp <$> falling)
                (annotated defaults (value <$> falling))).
  set (df1 := label_result strict df0 (rolled (value <$> falling))
                (delta (value <$> falling))).
  assert (label strict df0 = Ok df1) as Hl.
  { apply label_Some; simpl.
    - apply annotated_lookup_rolled.
    - apply annotated_lookup_delta.
    - left. rewrite annotated_lookup_harvest. eauto.
    - left. rewrite annotated_lookup_germination. eauto. }
  exists df0, df1. split; [by apply detect_read_csv|]. split; [exact Hl|].
  apply (labels_are_never_cleared strict df0 df1 "harvest_period"
           (harvest defaults (value <$> falling)) 3 0.15%Q).
  - eapply aligned_label; [|by apply label_smoothed].
    eapply aligned_smooth; [apply (aligned_read_csv falling) | apply smooth_read_csv].
  - exact Hl.
  - by left.
  - apply annotated_lookup_harvest.
  - vm_compute. reflexivity.
Defined.

Lemma smoothing_with_gaps_witness :
  columns gappy !! "mean" = Some [Some 0.3; NaN; Some 0.2; Some 0.1; Some 0.05]%Q
  ∧ ¬ ∃ s, cell "rolled_mean" 3 (smooth gappy) = Some (Some s).
Proof.
  split; [vm_compute; reflexivity|]. intros [s Hs].
  destruct (smoothing_with_gaps gappy
              [Some 0.3; NaN; Some 0.2; Some 0.1; Some 0.05]%Q 3) as (_ & _ & Hgap & _).
  - vm_compute. reflexivity.
  - apply (Hgap 1 eq_refl ltac:(lia) ltac:(lia) s Hs).
Defined.

Lemma labels_grow_with_thresholds_witness :
  labelled "harvest_period" 6 (detect (mkParams 0.2 0.2 14) (read_csv example)).
Proof.
  apply (labels_grow_with_thresholds defaults (mkParams 0.2 0.2 14) example).
  - apply Qle_bool_iff. vm_compute. reflexivity.
  - apply Qle_bool_iff. vm_compute. reflexivity.
  - by left.
  - eexists. vm_compute. reflexivity.
Defined.

Lemma nonpositive_delta_threshold_labels_nothing_witness :
  (delta_threshold (mkParams 0.15 0 14) <= 0)%Q
  ∧ ¬ labelled "harvest_period" 6 (detect (mkParams 0.15 0 14) (read_csv example)).
Proof.
  assert (delta_threshold (mkParams 0.15 0 14) <= 0)%Q as Hle.
  { apply Qle_bool_iff. vm_compute. reflexivity. }
  split; [exact Hle|].
  apply nonpositive_delta_threshold_labels_nothing; [exact Hle | by left].
Defined.

(** * The notebook on the CSV file: blank and text fields *)

Section csv.
Implicit Types (p : Params) (rows : list Line) (ts : list Z)
  (xs : list (option Q)) (i : nat).

Lemma parse_mean_None_iff rows :
  parse_mean rows = None ↔ ∃ l s, l ∈ rows ∧ mean_field l = Text s.
Proof.
  unfold parse_mean.
  destruct (existsb is_text (mean_field <$> rows)) eqn:He.
  - split; [intros _|done].
    apply existsb_exists in He as (f & Hin & Hf).
    apply list_elem_of_In, list_elem_of_fmap in Hin as (l & -> & Hl).
    destruct (mean_field l) as [| |s] eqn:Hm; try discriminate. by exists l, s.
  - split; [discriminate|]. intros (l & s & Hl & Hm).
    assert (existsb is_text (mean_field <$> rows) = true) as Ht; [|congruence].
    apply existsb_exists. exists (mean_field l). split; [|by rewrite Hm].
    apply list_elem_of_In, list_elem_of_fmap. by exists l.
Qed.

Lemma parse_mean_length rows xs : parse_mean rows = Some xs → length xs = length rows.
Proof.
  unfold parse_mean. case (existsb _ _); [discriminate|].
  intros [= <-]. by rewrite !length_fmap.
Qed.

Lemma load_Some rows xs :
  parse_mean rows = Some xs → load rows = Some (with_mean (date <$> rows) xs).
Proof. intros H. unfold load. by rewrite H. Qed.

Lemma load_None rows : parse_mean rows = None → load rows = None.
Proof. intros H. unfold load. by rewrite H. Qed.

Lemma smooth_with_mean ts xs : smooth (with_mean ts xs) = Ok (fresh_smoothed ts xs).
Proof. apply smooth_Some. unfold with_mean; simpl. apply lookup_singleton_eq. Qed.

Lemma fresh_smoothed_rolled ts xs :
  columns (fresh_smoothed ts xs) !! "rolled_mean" = Some (rolling_mean window xs).
Proof.
  unfold fresh_smoothed, setitem; simpl. by rewrite lookup_insert_ne, lookup_insert_eq.
Qed.

Lemma fresh_smoothed_delta ts xs :
  columns (fresh_smoothed ts xs) !! "delta_mean" = Some (diff (rolling_mean window xs)).
Proof. unfold fresh_smoothed, setitem; simpl. by rewrite lookup_insert_eq. Qed.

Lemma fresh_smoothed_other ts xs c :
  c ≠ "rolled_mean"%string → c ≠ "delta_mean"%string →
  columns (fresh_smoothed ts xs) !! c = columns (with_mean ts xs) !! c.
Proof.
  intros H1 H2. unfold fresh_smoothed, setitem; simpl. by rewrite !lookup_insert_ne.
Qed.

Lemma with_mean_lookup ts xs c :
  columns (with_mean ts xs) !! c = if decide (c = "mean"%string) then Some xs else None.
Proof.
  unfold with_mean; simpl. case_decide as Hc.
  - subst. apply lookup_singleton_eq.
  - by apply lookup_singleton_ne.
Qed.

Lemma label_fresh p ts xs :
  ts ≠ [] → label p (fresh_smoothed ts xs) = Ok (fresh_annotated p ts xs).
Proof.
  intros Hts. apply label_Some.
  - apply fresh_smoothed_rolled.
  - apply fresh_smoothed_delta.
  - by right.
  - by right.
Qed.

Lemma label_fresh_nil p xs :
  label p (fresh_smoothed [] xs) =
    Raise (ValueError "cannot set a frame with no defined index and a scalar").
Proof.
  eapply label_Raise_empty.
  - apply fresh_smoothed_rolled.
  - apply fresh_smoothed_delta.
  - done.
  - left. rewrite fresh_smoothed_other, with_mean_lookup by done. done.
Qed.

Lemma detect_with_mean p ts xs :
  ts ≠ [] → detect p (with_mean ts xs) = Ok (fresh_annotated p ts xs).
Proof.
  intros Hts. unfold detect. rewrite smooth_with_mean, bind_Ok. by apply label_fresh.
Qed.

Lemma prior_fresh ts xs c :
  c ≠ "mean"%string → c ≠ "rolled_mean"%string → c ≠ "delta_mean"%string →
  prior (fresh_smoothed ts xs) c = replicate (length ts) NaN.
Proof.
  intros H1 H2 H3. unfold prior.
  rewrite fresh_smoothed_other, with_mean_lookup, decide_False by done. done.
Qed.

Lemma fresh_annotated_harvest p ts xs :
  columns (fresh_annotated p ts xs) !! "harvest_period" =
    Some (assign (harvest_mask p (rolling_mean window xs) (diff (rolling_mean window xs)))
            (ndvi_threshold p) (replicate (length ts) NaN)).
Proof.
  unfold fresh_annotated, label_result, setitem; simpl.
  rewrite lookup_insert_ne, lookup_insert_eq by done. by rewrite prior_fresh.
Qed.

Lemma fresh_annotated_germination p ts xs :
  columns (fresh_annotated p ts xs) !! "germination_period" =
    Some (assign (germination_mask p (rolling_mean window xs)
                    (diff (rolling_mean window xs)))
            (ndvi_threshold p) (replicate (length ts) NaN)).
Proof.
  unfold fresh_annotated, label_result, setitem; simpl.
  rewrite lookup_insert_eq. by rewrite prior_fresh.
Qed.

Lemma fresh_annotated_other p ts xs c :
  c ≠ "harvest_period"%string → c ≠ "germination_period"%string →
  columns (fresh_annotated p ts xs) !! c = columns (fresh_smoothed ts xs) !! c.
Proof.
  intros H1 H2. unfold fresh_annotated, label_result, setitem; simpl.
  by rewrite (lookup_insert_ne _ "germination_period"),
             (lookup_insert_ne _ "harvest_period").
Qed.

(** A cell of a fresh label column: the threshold where the rule holds of
    the smoothed value and the delta of the row, NaN elsewhere. *)
Lemma fresh_label_cell (mask : list bool) (v : Q) n i x :
  assign mask v (replicate n NaN) !! i = Some x →
  ∃ m : bool, mask !! i = Some m ∧ i < n ∧ x = if m then Some v else NaN.
Proof.
  unfold assign. intros H.
  apply lookup_zip_with_Some in H as (m & o & -> & Hm & Ho).
  apply lookup_replicate in Ho as [-> Hi]. by exists m.
Qed.

Lemma harvest_mask_true p rm dm i :
  harvest_mask p rm dm !! i = Some true →
  ∃ s d, rm !! i = Some (Some s) ∧ dm !! i = Some (Some d).
Proof.
  unfold harvest_mask, band, Series.lt, Series.le, Series.abs.
  rewrite !lookup_zip_with, !list_lookup_fmap.
  destruct (rm !! i) as [[s|]|], (dm !! i) as [[d|]|]; simpl;
    rewrite ?andb_false_r; try discriminate. intros _. by exists s, d.
Qed.

Lemma germination_mask_true p rm dm i :
  germination_mask p rm dm !! i = Some true →
  ∃ s d, rm !! i = Some (Some s) ∧ dm !! i = Some (Some d).
Proof.
  unfold germination_mask, band, Series.lt, Series.gt, Series.abs, Float.gt.
  rewrite !lookup_zip_with, !list_lookup_fmap.
  destruct (rm !! i) as [[s|]|], (dm !! i) as [[d|]|]; simpl;
    rewrite ?andb_false_r; try discriminate. intros _. by exists s, d.
Qed.

Lemma rolling_mean_early xs i :
  i < length xs → i < window - 1 → rolling_mean window xs !! i = Some NaN.
Proof.
  intros Hi Hw. rewrite lookup_rolling_mean by exact Hi. by rewrite mean_at_early.
Qed.

Lemma rolling_mean_gap xs i k :
  i < length xs → k ≤ i → i < k + window → xs !! k = Some NaN →
  rolling_mean window xs !! i = Some NaN.
Proof.
  intros Hi Hk Hw Hgap.
  destruct (lookup_lt_is_Some_2 (rolling_mean window xs) i) as [[s|] Hs].
  { by rewrite length_rolling_mean. }
  - apply rolling_mean_Some_iff in Hs as (j & a & b & c & -> & Ha & Hb & Hc & _).
    unfold window, NaN in *.
    assert (k = j ∨ k = S j ∨ k = S (S j)) as [-> | [-> | ->]] by lia; congruence.
  - exact Hs.
Qed.

Lemma diff_early xs i : i < length xs → i < window → diff (rolling_mean window xs) !! i = Some NaN.
Proof.
  intros Hi Hw.
  destruct (lookup_lt_is_Some_2 (diff (rolling_mean window xs)) i) as [[d|] Hd].
  { by rewrite length_diff, length_rolling_mean. }
  - apply diff_Some_iff in Hd as (j & s & s' & -> & _ & Hs' & _).
    apply rolling_mean_Some_iff in Hs' as (j' & a & b & c & -> & _). unfold window in Hw. lia.
  - exact Hd.
Qed.

Lemma diff_NaN_operand (R : list (option Q)) i :
  i < length R → (R !! i = Some NaN ∨ ∃ j, i = S j ∧ R !! j = Some NaN) →
  diff R !! i = Some NaN.
Proof.
  intros Hi Hop.
  destruct (lookup_lt_is_Some_2 (diff R) i) as [[d|] Hd]; [by rewrite length_diff| |done].
  apply diff_Some_iff in Hd as (j & s & s' & -> & Hs & Hs' & _).
  unfold NaN in Hop. destruct Hop as [? | (j' & [= <-] & ?)]; congruence.
Qed.

End csv.

Section csv_outcomes.
Implicit Types (p : Params) (rows : list Line) (xs : list (option Q)) (i : nat).

Lemma cell_Ok (df : DataFrame) (c : string) i :
  cell c i (Ok df) = columns df !! c ≫= (.!! i).
Proof. reflexivity. Qed.

Lemma smooth_csv_Some rows xs :
  parse_mean rows = Some xs →
  smooth_csv rows = Ok (fresh_smoothed (date <$> rows) xs).
Proof.
  intros H. unfold smooth_csv. rewrite (load_Some rows xs H). apply smooth_with_mean.
Qed.

Lemma detect_csv_Some p rows xs :
  parse_mean rows = Some xs → rows ≠ [] →
  detect_csv p rows = Ok (fresh_annotated p (date <$> rows) xs).
Proof.
  intros H Hne. unfold detect_csv. rewrite (load_Some rows xs H).
  apply detect_with_mean. by destruct rows.
Qed.

Lemma detect_csv_nil p :
  detect_csv p [] =
    Raise (ValueError "cannot set a frame with no defined index and a scalar").
Proof. reflexivity. Qed.

Lemma detect_csv_Ok_inv p rows df :
  detect_csv p rows = Ok df →
  ∃ xs, parse_mean rows = Some xs ∧ rows ≠ []
        ∧ df = fresh_annotated p (date <$> rows) xs.
Proof.
  intros H. destruct (parse_mean rows) as [xs|] eqn:Hp.
  - destruct rows as [|l rows]; [discriminate|].
    rewrite (detect_csv_Some p _ xs Hp) in H by done. exists xs. by simplify_eq.
  - unfold detect_csv in H. rewrite (load_None rows Hp) in H. discriminate.
Qed.

(** A labelled row of the outcome: the rule's mask is true there. *)
Lemma labelled_csv_inv p rows xs c i :
  parse_mean rows = Some xs →
  c = "harvest_period"%string ∨ c = "germination_period"%string →
  labelled c i (detect_csv p rows) →
  ∃ s d, rolling_mean window xs !! i = Some (Some s)
         ∧ diff (rolling_mean window xs) !! i = Some (Some d).
Proof.
  intros Hp Hc [v Hv].
  destruct (detect_csv p rows) as [df|e] eqn:Hd; [|discriminate].
  apply detect_csv_Ok_inv in Hd as (xs' & Hp' & Hne & ->). simplify_eq.
  rewrite cell_Ok in Hv. destruct Hc as [-> | ->].
  - rewrite fresh_annotated_harvest in Hv; simpl in Hv.
    apply fresh_label_cell in Hv as ([|] & Hm & _ & Hx); [|discriminate].
    by apply harvest_mask_true in Hm.
  - rewrite fresh_annotated_germination in Hv; simpl in Hv.
    apply fresh_label_cell in Hv as ([|] & Hm & _ & Hx); [|discriminate].
    by apply germination_mask_true in Hm.
Qed.

Lemma label_cell_cases (mask : list bool) (v : Q) n i :
  length mask = n → i < n →
  assign mask v (replicate n NaN) !! i = Some (Some v)
  ∨ assign mask v (replicate n NaN) !! i = Some NaN.
Proof.
  intros Hlen Hi. destruct (lookup_lt_is_Some_2 mask i) as [m Hm]; [lia|].
  rewrite (lookup_assign_fresh mask v n i m Hm Hi). destruct m; [by left | by right].
Qed.

(** A file of numeric observations loads as the frame of the series, so the
    detector on the file is the detector on that frame. *)
Lemma load_lines (obs : list Observation) : load (lines obs) = Some (read_csv obs).
Proof.
  unfold load, parse_mean, lines.
  assert (existsb is_text
            (mean_field <$> ((λ o, mkLine (timestamp o) (Number (value o))) <$> obs))
          = false) as ->.
  { induction obs as [|o obs IH]; [done|]. simpl. exact IH. }
  simpl. unfold with_mean, read_csv. do 2 f_equal.
  - rewrite <- list_fmap_compose. by apply list_fmap_ext.
  - f_equal. rewrite <- !list_fmap_compose. by apply list_fmap_ext.
Qed.

(** A text among the fields: the smoothing cell raises, and nothing is
    produced. *)
Lemma broken_lines_raise p :
  smooth_csv broken_lines = Raise DataError
  ∧ detect_csv p broken_lines = Raise DataError.
Proof. split; reflexivity. Qed.

Lemma detect_csv_lines p (obs : list Observation) :
  detect_csv p (lines obs) = detect p (read_csv obs).
Proof. unfold detect_csv. by rewrite load_lines. Qed.

End csv_outcomes.

(** C4, as the notebook has it.  The notebook checks nothing itself.  A text
    in the column [mean] makes the smoothing cell raise the DataError of the
    library, and the detector with it, so that no column is produced.  With
    no text: the smoothing cell returns, having added the smoothed and the
    delta column; on a file without lines the labelling cell then raises the
    ValueError of the label assignment; on every other file, whatever the
    order of its timestamps and with or without blank fields, the detector
    raises nothing and returns the frame with the timestamps of the file,
    its observations, the smoothed and the delta column and the two label
    columns. *)
Theorem notebook_outcome (p : Params) (rows : list Line) :
  (parse_mean rows = None ↔ ∃ l s, l ∈ rows ∧ mean_field l = Text s)
  ∧ match parse_mean rows with
    | None =>
        smooth_csv rows = Raise DataError ∧ detect_csv p rows = Raise DataError
    | Some xs =>
        ∃ df1,
          smooth_csv rows = Ok df1
          ∧ timestamps df1 = date <$> rows
          ∧ columns df1 !! "mean" = Some xs
          ∧ columns df1 !! "rolled_mean" = Some (rolling_mean window xs)
          ∧ columns df1 !! "delta_mean" = Some (diff (rolling_mean window xs))
          ∧ match rows with
            | [] =>
                detect_csv p rows =
                  Raise (ValueError "cannot set a frame with no defined index and a scalar")
            | _ :: _ =>
                ∃ df,
                  detect_csv p rows = Ok df ∧ label p df1 = Ok df
                  ∧ timestamps df = date <$> rows
                  ∧ columns df !! "mean" = Some xs
                  ∧ columns df !! "rolled_mean" = Some (rolling_mean window xs)
                  ∧ columns df !! "delta_mean" = Some (diff (rolling_mean window xs))
                  ∧ columns df !! "harvest_period" =
                      Some (assign
                              (harvest_mask p (rolling_mean window xs)
                                 (diff (rolling_mean window xs)))
                              (ndvi_threshold p) (replicate (length rows) NaN))
                  ∧ columns df !! "germination_period" =
                      Some (assign
                              (germination_mask p (rolling_mean window xs)
                                 (diff (rolling_mean window xs)))
                              (ndvi_threshold p) (replicate (length rows) NaN))
            end
    end.
Proof.
  split; [apply parse_mean_None_iff|].
  destruct (parse_mean rows) as [xs|] eqn:Hp.
  2:{ unfold smooth_csv, detect_csv. by rewrite (load_None rows Hp). }
  exists (fresh_smoothed (date <$> rows) xs).
  split; [by apply smooth_csv_Some|]. split; [done|].
  split; [by rewrite fresh_smoothed_other, with_mean_lookup|].
  split; [apply fresh_smoothed_rolled|]. split; [apply fresh_smoothed_delta|].
  destruct rows as [|l rows]; [apply detect_csv_nil|].
  exists (fresh_annotated p (date <$> l :: rows) xs).
  split; [by apply detect_csv_Some|]. split; [by apply label_fresh|].
  split; [done|].
  split; [by rewrite fresh_annotated_other, fresh_smoothed_other, with_mean_lookup|].
  split; [rewrite fresh_annotated_other by done; apply fresh_smoothed_rolled|].
  split; [rewrite fresh_annotated_other by done; apply fresh_smoothed_delta|].
  split.
  - rewrite fresh_annotated_harvest. by rewrite length_fmap.
  - rewrite fresh_annotated_germination. by rewrite length_fmap.
Qed.

(** C5 fails.  In a file whose second line has a blank field, row 3 holds an
    observation and is not one of the first [window - 1] rows, yet the
    smoothed column is NaN there; and row 4 is not one of the first [window]
    rows, yet the delta column is NaN there. *)
Lemma gap_blanks_later_rows :
  parse_mean gappy_lines = Some [Some 0.3; NaN; Some 0.2; Some 0.1; Some 0.05]%Q
  ∧ ¬ 3 < window - 1
  ∧ cell "rolled_mean" 3 (smooth_csv gappy_lines) = Some NaN
  ∧ ¬ 4 < window
  ∧ cell "delta_mean" 4 (smooth_csv gappy_lines) = Some NaN.
Proof.
  split; [reflexivity|]. split; [unfold window; lia|].
  split; [vm_compute; reflexivity|]. split; [unfold window; lia|].
  vm_compute. reflexivity.
Qed.

(** C5, as the notebook has it.  For a file without a text in the column
    [mean], blank fields allowed: the smoothed and the delta column have as
    many rows as the file; the smoothed column is NaN on its first
    [window - 1] rows and on every row whose window, the row and the
    [window - 1] rows before it, holds a blank; the delta column is NaN on
    its first [window] rows and wherever the smoothed value of the row or of
    the row before is NaN; a delta that exists is the smoothed value of its
    row minus that of the row before, both of which exist; the labelling
    cell leaves both columns as they are; and a label is only assigned at a
    row where the smoothed value and the delta exist.  Here [window] is the
    window of the rolling mean, 3. *)
Theorem derived_series_shape (p : Params) (rows : list Line) (xs : list (option Q)) :
  parse_mean rows = Some xs →
  ∃ R D : list (option Q),
    column "rolled_mean" (smooth_csv rows) = Some R
    ∧ column "delta_mean" (smooth_csv rows) = Some D
    ∧ length R = length rows ∧ length D = length rows
    ∧ (∀ i, i < length rows → i < window - 1 → R !! i = Some NaN)
    ∧ (∀ i k, i < length rows → k ≤ i → i < k + window → xs !! k = Some NaN →
         R !! i = Some NaN)
    ∧ (∀ i, i < length rows → i < window → D !! i = Some NaN)
    ∧ (∀ i, i < length rows →
         R !! i = Some NaN ∨ (∃ j, i = S j ∧ R !! j = Some NaN) →
         D !! i = Some NaN)
    ∧ (∀ i d, D !! i = Some (Some d) →
         ∃ j s s', i = S j ∧ R !! S j = Some (Some s) ∧ R !! j = Some (Some s')
                   ∧ d = (s - s')%Q)
    ∧ (∀ df, detect_csv p rows = Ok df →
         columns df !! "rolled_mean" = Some R ∧ columns df !! "delta_mean" = Some D)
    ∧ (∀ c i, c = "harvest_period"%string ∨ c = "germination_period"%string →
         labelled c i (detect_csv p rows) →
         ∃ s d, R !! i = Some (Some s) ∧ D !! i = Some (Some d)).
Proof.
  intros Hp. pose proof (parse_mean_length rows xs Hp) as Hlen.
  exists (rolling_mean window xs), (diff (rolling_mean window xs)).
  rewrite (smooth_csv_Some rows xs Hp). unfold column.
  rewrite fresh_smoothed_rolled, fresh_smoothed_delta.
  rewrite length_diff, length_rolling_mean, Hlen.
  split; [done|]. split; [done|]. split; [done|]. split; [done|].
  split; [intros i Hi Hw; apply rolling_mean_early; [lia | done]|].
  split; [intros i k Hi Hk Hw Hgap; apply (rolling_mean_gap xs i k); [lia | done ..]|].
  split; [intros i Hi Hw; apply diff_early; [lia | done]|].
  split.
  { intros i Hi Hop. apply diff_NaN_operand; [|done].
    rewrite length_rolling_mean. lia. }
  split; [intros i d Hd; by apply diff_Some_iff in Hd|].
  split.
  - intros df (xs' & Hp' & _ & ->)%detect_csv_Ok_inv. simplify_eq.
    rewrite !fresh_annotated_other by done.
    by rewrite fresh_smoothed_rolled, fresh_smoothed_delta.
  - intros c i Hc Hl. by apply (labelled_csv_inv p rows xs c i).
Qed.

(** C9 fails.  On the example series the input has no column [rolled_mean]
    and none [delta_mean], and the detector returns a frame that has both:
    columns that are not label columns are added. *)
Lemma detector_adds_derived_columns :
  columns (read_csv example) !! "rolled_mean" = None
  ∧ columns (read_csv example) !! "delta_mean" = None
  ∧ ∃ df, detect defaults (read_csv example) = Ok df
          ∧ is_Some (columns df !! "rolled_mean")
          ∧ is_Some (columns df !! "delta_mean").
Proof.
  split; [reflexivity|]. split; [reflexivity|].
  eexists. split; [by apply detect_read_csv|]. simpl.
  rewrite annotated_lookup_rolled, annotated_lookup_delta. eauto.
Qed.

(** C9, as the notebook has it.  On a file with at least one line and no
    text in the column [mean] the detector returns a frame with the
    timestamps and the observations of the input; the columns [rolled_mean],
    [delta_mean], [harvest_period] and [germination_period], none of which
    the input has, are added and no other column is added or changed; a cell
    of a label column is the index threshold where the row is labelled and
    NaN where it is not. *)
Theorem detector_adds_four_columns (p : Params) (rows : list Line)
    (xs : list (option Q)) :
  parse_mean rows = Some xs → rows ≠ [] →
  ∃ df0 df,
    load rows = Some df0 ∧ detect_csv p rows = Ok df
    ∧ timestamps df0 = date <$> rows ∧ timestamps df = date <$> rows
    ∧ columns df0 !! "mean" = Some xs ∧ columns df !! "mean" = Some xs
    ∧ (∀ c, c ≠ "rolled_mean"%string → c ≠ "delta_mean"%string →
            c ≠ "harvest_period"%string → c ≠ "germination_period"%string →
            columns df !! c = columns df0 !! c)
    ∧ (∀ c, c = "rolled_mean"%string ∨ c = "delta_mean"%string
            ∨ c = "harvest_period"%string ∨ c = "germination_period"%string →
            columns df0 !! c = None
            ∧ ∃ ys, columns df !! c = Some ys ∧ length ys = length rows)
    ∧ (∀ c i, c = "harvest_period"%string ∨ c = "germination_period"%string →
         i < length rows →
         cell c i (Ok df) = Some (Some (ndvi_threshold p))
         ∨ cell c i (Ok df) = Some NaN)
    ∧ (∀ c i v, c = "harvest_period"%string ∨ c = "germination_period"%string →
         cell c i (Ok df) = Some (Some v) → v = ndvi_threshold p).
Proof.
  intros Hp Hne. pose proof (parse_mean_length rows xs Hp) as Hlen.
  set (R := rolling_mean window xs). set (D := diff R).
  assert (length R = length rows) as HR by (unfold R; by rewrite length_rolling_mean).
  assert (length D = length rows) as HD by (unfold D; by rewrite length_diff).
  assert (length (harvest_mask p R D) = length rows) as Hmh.
  { rewrite length_harvest_mask; congruence. }
  assert (length (germination_mask p R D) = length rows) as Hmg.
  { rewrite length_germination_mask; congruence. }
  exists (with_mean (date <$> rows) xs), (fresh_annotated p (date <$> rows) xs).
  split; [by apply load_Some|]. split; [by apply detect_csv_Some|].
  split; [done|]. split; [done|].
  split; [by rewrite with_mean_lookup|].
  split; [by rewrite fresh_annotated_other, fresh_smoothed_other, with_mean_lookup|].
  split; [intros c H1 H2 H3 H4;
          by rewrite fresh_annotated_other, fresh_smoothed_other|].
  split.
  { intros c Hc. rewrite with_mean_lookup.
    destruct Hc as [-> | [-> | [-> | ->]]]; (split; [done|]).
    - exists R. by rewrite fresh_annotated_other, fresh_smoothed_rolled.
    - exists D. by rewrite fresh_annotated_other, fresh_smoothed_delta.
    - eexists. rewrite fresh_annotated_harvest. split; [done|].
      rewrite length_assign; rewrite length_replicate, length_fmap; [done|].
      exact Hmh.
    - eexists. rewrite fresh_annotated_germination. split; [done|].
      rewrite length_assign; rewrite length_replicate, length_fmap; [done|].
      exact Hmg. }
  split.
  - intros c i [-> | ->] Hi; rewrite cell_Ok.
    + rewrite fresh_annotated_harvest; simpl.
      apply label_cell_cases; rewrite length_fmap; [exact Hmh | done].
    + rewrite fresh_annotated_germination; simpl.
      apply label_cell_cases; rewrite length_fmap; [exact Hmg | done].
  - intros c i v [-> | ->]; rewrite cell_Ok.
    + rewrite fresh_annotated_harvest; simpl.
      intros ([|] & _ & _ & Hx)%fresh_label_cell; by simplify_eq.
    + rewrite fresh_annotated_germination; simpl.
      intros ([|] & _ & _ & Hx)%fresh_label_cell; by simplify_eq.
Qed.

(** ** The theorems of this part at concrete files and series *)

Lemma derived_series_shape_witness :
  ∃ R D : list (option Q),
    column "rolled_mean" (smooth_csv gappy_lines) = Some R
    ∧ column "delta_mean" (smooth_csv gappy_lines) = Some D
    ∧ length R = 5 ∧ length D = 5
    ∧ R !! 3 = Some NaN ∧ D !! 4 = Some NaN.
Proof.
  destruct (derived_series_shape defaults gappy_lines
              [Some 0.3; NaN; Some 0.2; Some 0.1; Some 0.05]%Q)
    as (R & D & HR & HD & HlR & HlD & _ & Hgap & _ & Hop & _).
  - reflexivity.
  - exists R, D. split; [exact HR|]. split; [exact HD|].
    split; [exact HlR|]. split; [exact HlD|].
    assert (R !! 3 = Some NaN) as H3.
    { apply (Hgap 3 1); [simpl; lia | lia | unfold window; lia | reflexivity]. }
    split; [exact H3|].
    apply Hop; [simpl; lia|]. right. by exists 3.
Defined.

Lemma detector_adds_four_columns_witness :
  ∃ df0 df,
    load gappy_lines = Some df0 ∧ detect_csv defaults gappy_lines = Ok df
    ∧ timestamps df = [0; 1; 2; 3; 4]%Z
    ∧ columns df0 !! "rolled_mean" = None
    ∧ ∃ ys, columns df !! "rolled_mean" = Some ys ∧ length ys = 5.
Proof.
  destruct (detector_adds_four_columns defaults gappy_lines
              [Some 0.3; NaN; Some 0.2; Some 0.1; Some 0.05]%Q)
    as (df0 & df & Hl & Hd & _ & Ht & _ & _ & _ & Hadd & _).
  - reflexivity.
  - discriminate.
  - exists df0, df. split; [exact Hl|]. split; [exact Hd|]. split; [exact Ht|].
    apply Hadd. by left.
Defined.

Lemma constant_series_unlabelled_witness :
  (∃ s d : Q,
     cell "rolled_mean" 4 (detect defaults (read_csv flat)) = Some (Some s)
     ∧ (s < ndvi_threshold defaults)%Q
     ∧ cell "delta_mean" 4 (detect defaults (read_csv flat)) = Some (Some d)
     ∧ (d == 0)%Q)
  ∧ column "harvest_period" (detect defaults (read_csv flat))
    = Some [NaN; NaN; NaN; NaN; NaN]
  ∧ column "germination_period" (detect defaults (read_csv flat))
    = Some [NaN; NaN; NaN; NaN; NaN].
Proof.
  destruct (constant_series_unlabelled defaults flat 0.1) as (_ & Hzero & _ & _ & Hcols).
  - intros o Ho. unfold flat, daily in Ho. simpl in Ho.
    repeat (apply elem_of_cons in Ho as [-> | Ho]; [reflexivity|]).
    by apply elem_of_nil in Ho.
  - split.
    + assert (∃ s, cell "rolled_mean" 4 (detect defaults (read_csv flat)) = Some (Some s)
                   ∧ (s < ndvi_threshold defaults)%Q) as (s & Hs & Hlt).
      { eexists. split; [vm_compute; reflexivity|].
        apply Qlt_bool_iff. vm_compute. reflexivity. }
      assert (∃ d, cell "delta_mean" 4 (detect defaults (read_csv flat)) = Some (Some d))
        as [d Hd] by (eexists; vm_compute; reflexivity).
      exists s, d. split; [exact Hs|]. split; [exact Hlt|]. split; [exact Hd|].
      exact (Hzero 4 d Hd).
    + apply Hcols. vm_compute. discriminate.
Defined.
